(** * indent-complexity: indentation depth statistics and their assessment

    A shallow embedding of the TypeScript sources of [indent-complexity]
    ([parser.ts], [statistics.ts], [assessment.ts], [result-builder.ts],
    [analyze.ts], [analyze-diff.ts], [constants.ts]) and the properties the
    specification states about them.

    Modelling conventions.
    - A JavaScript string is the list of its UTF-16 code units ([jsstring]).
    - A JavaScript [number] that the program only ever uses as an integer
      (line numbers, column counts, indent units, depths, histogram counts)
      is a [Z]; the numbers the statistics are computed with are kept
      abstract behind the class [Number], which has two instances: IEEE-754
      binary64 ([float], the arithmetic the program runs on) and the real
      numbers ([R], exact arithmetic).
    - [detectIndent] (npm package [detect-indent]) and the host's
      [Number::toString] are not part of the repository; they are section
      variables. *)

From Stdlib Require Import ZArith List Bool Lia String Ascii DecimalString.
From Stdlib Require Import Floats Reals Lra Sorted.
From stdpp Require Import gmap sorting.
Import ListNotations.

Local Open Scope Z_scope.

(* Decimal float literals denote the nearest binary64 value, as in
   JavaScript source text. *)
Local Set Warnings "-inexact-float".

(* ================================================================== *)
(** ** JavaScript strings *)
(* ================================================================== *)

(** A UTF-16 code unit. *)
Definition char := N.

Definition jsstring := list char.

(** An ASCII literal as a [jsstring]. *)
Definition js (s : string) : jsstring :=
  List.map N_of_ascii (list_ascii_of_string s).

Definition LF : char := 10%N.
Definition TAB : char := 9%N.
Definition SPACE : char := 32%N.

Definition char_eqb (a b : char) : bool := N.eqb a b.

(** [String.prototype.startsWith]. *)
Fixpoint startsWith (s prefix : jsstring) {struct prefix} : bool :=
  match prefix, s with
  | [], _ => true
  | _ :: _, [] => false
  | p :: prefix', c :: s' => char_eqb c p && startsWith s' prefix'
  end.

(** [s.slice(1)]. *)
Definition slice1 (s : jsstring) : jsstring := List.tl s.

(** [s.split('\n')]: never empty, the empty string gives one empty line. *)
Fixpoint split (s : jsstring) : list jsstring :=
  match s with
  | [] => [[]]
  | c :: s' =>
      if char_eqb c LF then [] :: split s'
      else match split s' with
           | [] => [[c]]
           | l :: ls => (c :: l) :: ls
           end
  end.

(** [lines.join('\n')]. *)
Fixpoint join (ls : list jsstring) : jsstring :=
  match ls with
  | [] => []
  | [l] => l
  | l :: ls' => l ++ LF :: join ls'
  end.

(** ECMAScript WhiteSpace and LineTerminator code points: what
    [String.prototype.trim] strips and what [\s] matches. *)
Definition isWhiteSpace (c : char) : bool :=
  List.existsb (char_eqb c)
    [9; 10; 11; 12; 13; 32; 160; 5760; 8232; 8233; 8239; 8287; 12288; 65279]%N
  || ((8192 <=? c)%N && (c <=? 8202)%N).

Fixpoint dropWhile {A} (p : A -> bool) (l : list A) : list A :=
  match l with
  | [] => []
  | x :: l' => if p x then dropWhile p l' else l
  end.

Fixpoint takeWhile {A} (p : A -> bool) (l : list A) : list A :=
  match l with
  | [] => []
  | x :: l' => if p x then x :: takeWhile p l' else []
  end.

(** [String.prototype.trim]. *)
Definition trim (s : jsstring) : jsstring :=
  rev (dropWhile isWhiteSpace (rev (dropWhile isWhiteSpace s))).

(** Decimal digits of a non-negative integer, most significant first. *)
Definition digitsOfZ (n : Z) : jsstring :=
  js (NilZero.string_of_uint (N.to_uint (Z.to_N n))).

Definition isDigit (c : char) : bool := ((48 <=? c) && (c <=? 57))%N.

(** [s.includes(sub)], as a proposition. *)
Definition includes (s sub : jsstring) : Prop :=
  exists before after, s = before ++ sub ++ after.

(* ================================================================== *)
(** ** Numbers *)
(* ================================================================== *)

(** The arithmetic [statistics.ts] and [assessment.ts] use on [number]s. *)
Class Number (num : Type) := {
  ofZ : Z -> num;
  add : num -> num -> num;
  sub : num -> num -> num;
  mul : num -> num -> num;
  div : num -> num -> num;
  sqrt : num -> num;
  (** [a >= b] *)
  geb : num -> num -> bool;
  (** [a <= b], the order the comparator [(a, b) => a - b] sorts by *)
  leb : num -> num -> bool
}.

(** IEEE-754 binary64 with round-to-nearest-even: the JavaScript [number]. *)
Definition float_ofZ (z : Z) : float :=
  SF2Prim (binary_normalize prec emax z 0 false).

#[export] Instance Float64 : Number float := {
  ofZ := float_ofZ;
  add := PrimFloat.add;
  sub := PrimFloat.sub;
  mul := PrimFloat.mul;
  div := PrimFloat.div;
  sqrt := PrimFloat.sqrt;
  geb := fun a b => PrimFloat.leb b a;
  leb := PrimFloat.leb
}.

(** Exact arithmetic over the reals. *)
#[export] Instance Exact : Number R := {
  ofZ := IZR;
  add := Rplus;
  sub := Rminus;
  mul := Rmult;
  div := Rdiv;
  sqrt := R_sqrt.sqrt;
  geb := fun a b => if Rge_dec a b then true else false;
  leb := fun a b => if Rle_dec a b then true else false
}.

(* ================================================================== *)
(** ** statistics.ts *)
(* ================================================================== *)

Record StatisticalMoments (num : Type) := mkMoments {
  score : num;
  sum : num;
  mean : num;
  variance : num;
  stdDev : num;
  median : num;
  max : num
}.
Arguments mkMoments {num}.
Arguments score {num}.
Arguments sum {num}.
Arguments mean {num}.
Arguments variance {num}.
Arguments stdDev {num}.
Arguments median {num}.
Arguments max {num}.

Section Statistics.
Context {num : Type} {NUM : Number num}.

(** [xs.reduce((acc, d) => acc + d, 0)] *)
Definition sumOf (xs : list num) : num :=
  fold_left (fun acc d => add acc d) xs (ofZ 0).

Fixpoint insertSorted (x : num) (l : list num) : list num :=
  match l with
  | [] => [x]
  | y :: l' => if leb x y then x :: l else y :: insertSorted x l'
  end.

(** [[...depths].sort((a, b) => a - b)]: ascending numeric order. *)
Definition sortNumbers (l : list num) : list num :=
  fold_right insertSorted [] l.

(** [xs[i] ?? 0] *)
Definition at0 (xs : list num) (i : nat) : num := nth i xs (ofZ 0).

Definition computeStatistics (depths : list num) : StatisticalMoments num :=
  match depths with
  | [] =>
      mkMoments (ofZ 0) (ofZ 0) (ofZ 0) (ofZ 0) (ofZ 0) (ofZ 0) (ofZ 0)
  | _ :: _ =>
      let len := ofZ (Z.of_nat (length depths)) in
      let sum := sumOf depths in
      let mean := div sum len in
      let squaredDiffs :=
        List.map (fun d => mul (sub d mean) (sub d mean)) depths in
      let variance := div (sumOf squaredDiffs) len in
      let stdDev := sqrt variance in
      let sorted := sortNumbers depths in
      let mid := Nat.div (length sorted) 2 in
      let median :=
        if Nat.eqb (Nat.modulo (length sorted) 2) 0
        then div (add (at0 sorted (mid - 1)%nat) (at0 sorted mid)) (ofZ 2)
        else at0 sorted mid in
      let max := List.last sorted (ofZ 0) in
      let sumSquaredDepths :=
        fold_left (fun acc d => add acc (mul d d)) depths (ofZ 0) in
      let score := div sumSquaredDepths len in
      mkMoments score sum mean variance stdDev median max
  end.
End Statistics.

(** [buildHistogram]: the object's keys are the depths that occur. *)
Definition buildHistogram (depths : list Z) : gmap Z Z :=
  fold_left
    (fun histogram depth =>
       <[depth := default 0 (histogram !! depth) + 1]> histogram)
    depths ∅.

(* ================================================================== *)
(** ** constants.ts and assessment.ts *)
(* ================================================================== *)

(** ['low' | 'medium' | 'high'] *)
Inductive ComplexityLevel := Low | Medium | High.

Record Thresholds (num : Type) := mkThresholds {
  medium : num;
  high : num
}.
Arguments mkThresholds {num}.
Arguments medium {num}.
Arguments high {num}.

(** [Partial<Thresholds>]: [None] is an omitted property. *)
Module Partial.
Record Thresholds (num : Type) := mk {
  medium : option num;
  high : option num
}.
Arguments mk {num}.
Arguments medium {num}.
Arguments high {num}.
End Partial.

(** How the host prints a number: [x.toFixed(1)] and the conversion a
    template literal applies ([Number::toString]). *)
Class NumberFormat (num : Type) := {
  toFixed1 : num -> jsstring;
  numberToString : num -> jsstring
}.

Record Assessment := mkAssessment {
  level : ComplexityLevel;
  reason : jsstring
}.

Section Assessment.
Context {num : Type} {NUM : Number num} {FMT : NumberFormat num}.

Definition DEFAULT_THRESHOLDS : Thresholds num :=
  {| medium := ofZ 4; high := ofZ 10 |}.

(** [{ ...DEFAULT_THRESHOLDS, ...userThresholds }] *)
Definition resolveThresholds
    (userThresholds : option (Partial.Thresholds num)) : Thresholds num :=
  match userThresholds with
  | None => DEFAULT_THRESHOLDS
  | Some u =>
      {| medium := default (medium DEFAULT_THRESHOLDS) (Partial.medium u);
         high := default (high DEFAULT_THRESHOLDS) (Partial.high u) |}
  end.

Definition assessComplexity (score : num) (thresholds : Thresholds num)
    : Assessment :=
  if geb score (high thresholds) then
    {| level := High;
       reason := js "Score " ++ toFixed1 score
                 ++ js " exceeds high threshold ("
                 ++ numberToString (high thresholds) ++ js ")" |}
  else if geb score (medium thresholds) then
    {| level := Medium;
       reason := js "Score " ++ toFixed1 score
                 ++ js " exceeds medium threshold ("
                 ++ numberToString (medium thresholds) ++ js ")" |}
  else
    {| level := Low;
       reason := js "Score indicates simple, low-nesting code" |}.
End Assessment.

(** *** [Number.prototype.toFixed(1)] on binary64 *)

(** The integer [n] for which [n / 10] is closest to [m * 2^e], the larger
    one of two equally close. *)
Definition nearestTenths (m : positive) (e : Z) : Z :=
  let numer := 10 * Z.pos m * 2 ^ Z.max 0 e in
  let denom := 2 ^ Z.max 0 (- e) in
  (2 * numer + denom) / (2 * denom).

(** [10^21 <= m * 2^e] *)
Definition atLeast1e21 (m : positive) (e : Z) : bool :=
  10 ^ 21 * 2 ^ Z.max 0 (- e) <=? Z.pos m * 2 ^ Z.max 0 e.

Section Float64Format.
(** [Number::toString] of the host. *)
Variable float_toString : float -> jsstring.

Definition float_toFixed1 (x : float) : jsstring :=
  match Prim2SF x with
  | S754_zero _ => js "0.0"
  | S754_finite s m e =>
      (if s then js "-" else [])
      ++ (if atLeast1e21 m e then float_toString (PrimFloat.abs x)
          else let n := nearestTenths m e in
               digitsOfZ (n / 10) ++ js "." ++ digitsOfZ (n mod 10))
  | _ => float_toString x
  end.

Definition Float64Format : NumberFormat float :=
  {| toFixed1 := float_toFixed1; numberToString := float_toString |}.
End Float64Format.

(* ================================================================== *)
(** ** types.ts and result-builder.ts *)
(* ================================================================== *)

Record ParsedLine := mkParsedLine {
  lineNumber : Z;
  depth : Z;
  content : jsstring
}.

Module LineDetail.
Record t := mk {
  line : Z;
  depth : Z;
  content : jsstring
}.
End LineDetail.

(** The result object: [ComplexityResult], [ComplexityResultVerbose] or
    [ComplexityResultWithLines], by the properties it has ([None] is an
    absent property). *)
Module Result.
Record t (num : Type) := mk {
  score : num;
  level : ComplexityLevel;
  reason : jsstring;
  lineCount : option Z;
  max : option num;
  variance : option num;
  mean : option num;
  stdDev : option num;
  median : option num;
  sum : option num;
  depthHistogram : option (gmap Z Z);
  lines : option (list LineDetail.t)
}.
Arguments mk {num}.
Arguments score {num}.
Arguments level {num}.
Arguments reason {num}.
Arguments lineCount {num}.
Arguments max {num}.
Arguments variance {num}.
Arguments mean {num}.
Arguments stdDev {num}.
Arguments median {num}.
Arguments sum {num}.
Arguments depthHistogram {num}.
Arguments lines {num}.
End Result.

Module BuildResultOptions.
Record t (num : Type) := mk {
  verbose : bool;
  includeLines : bool;
  userThresholds : option (Partial.Thresholds num)
}.
Arguments mk {num}.
Arguments verbose {num}.
Arguments includeLines {num}.
Arguments userThresholds {num}.
End BuildResultOptions.

Section ResultBuilder.
Context {num : Type} {NUM : Number num} {FMT : NumberFormat num}.

Definition buildResult (lines : list ParsedLine)
    (options : BuildResultOptions.t num) : Result.t num :=
  let verbose := BuildResultOptions.verbose options in
  let includeLines := BuildResultOptions.includeLines options in
  let userThresholds := BuildResultOptions.userThresholds options in
  let depths := List.map depth lines in
  let stats := computeStatistics (List.map ofZ depths) in
  let thresholds := resolveThresholds userThresholds in
  let assessment := assessComplexity (score stats) thresholds in
  let result :=
    Result.mk (score stats) (level assessment) (reason assessment)
      None None None None None None None None None in
  if negb verbose && negb includeLines then result
  else
    let verboseResult :=
      Result.mk (Result.score result) (Result.level result)
        (Result.reason result)
        (Some (Z.of_nat (length lines)))
        (Some (max stats)) (Some (variance stats)) (Some (mean stats))
        (Some (stdDev stats)) (Some (median stats)) (Some (sum stats))
        (Some (buildHistogram depths))
        None in
    if includeLines then
      let lineDetails :=
        List.map
          (fun l => LineDetail.mk (lineNumber l) (depth l) (content l))
          lines in
      Result.mk (Result.score verboseResult) (Result.level verboseResult)
        (Result.reason verboseResult) (Result.lineCount verboseResult)
        (Result.max verboseResult) (Result.variance verboseResult)
        (Result.mean verboseResult) (Result.stdDev verboseResult)
        (Result.median verboseResult) (Result.sum verboseResult)
        (Result.depthHistogram verboseResult)
        (Some lineDetails)
    else verboseResult.
End ResultBuilder.

(* ================================================================== *)
(** ** parser.ts *)
(* ================================================================== *)

(** A regular expression as its [test] method. This is what [test] is for
    a pattern without the [g] or [y] flag, as the default pattern is; with
    one of these flags [test] also reads and writes [lastIndex], which is
    not modelled. *)
Definition RegExp := jsstring -> bool.

(** [/^\s*(\/\/|\/\*|\*|#|<!--|--)/]: some number of white space
    characters from the start of the line, then one of the markers. *)
Definition COMMENT_MARKERS : list jsstring :=
  [js "//"; js "/*"; js "*"; js "#"; js "<!--"; js "--"].

Fixpoint DEFAULT_COMMENT_PATTERN (line : jsstring) : bool :=
  List.existsb (startsWith line) COMMENT_MARKERS
  || match line with
     | [] => false
     | c :: rest => isWhiteSpace c && DEFAULT_COMMENT_PATTERN rest
     end.

(** What [detect-indent] returns: [type] is absent when no indentation
    was found. *)
Inductive IndentType := space | tab.

Record Indent := mkIndent {
  amount : Z;
  type : option IndentType
}.

(** [commentPattern?: RegExp | null]: [None] is an omitted property,
    [Some None] is [null]. *)
Module ParseOptions.
Record t := mk {
  commentPattern : option (option RegExp)
}.
End ParseOptions.

Record ParseResult := mkParseResult {
  lines : list ParsedLine;
  indentUnit : Z
}.

Definition isTabOrSpace (c : char) : bool :=
  char_eqb c TAB || char_eqb c SPACE.

Definition computeIndentDepth (line : jsstring) (indentUnit : Z) : Z :=
  (* line.match(/^[\t ]*/)[0] *)
  let leadingWhitespace := takeWhile isTabOrSpace line in
  let charCount :=
    fold_left
      (fun charCount char =>
         charCount + (if char_eqb char TAB then indentUnit else 1))
      leadingWhitespace 0 in
  (* Math.floor(charCount / indentUnit) *)
  charCount / indentUnit.

(** [commentPattern !== null && commentPattern.test(line)] *)
Definition isComment (commentPattern : option RegExp) (line : jsstring)
    : bool :=
  match commentPattern with
  | None => false
  | Some re => re line
  end.

(** The body of the [for] loop of [parseContent], from index [i] on;
    [lines] is the array built so far. *)
Fixpoint parseContentLoop (commentPattern : option RegExp) (indentUnit : Z)
    (rawLines : list jsstring) (i : Z) (lines : list ParsedLine)
    : list ParsedLine :=
  match rawLines with
  | [] => lines
  | line :: rest =>
      let trimmed := trim line in
      if Nat.eqb (length trimmed) 0 then
        parseContentLoop commentPattern indentUnit rest (i + 1) lines
      else if isComment commentPattern line then
        parseContentLoop commentPattern indentUnit rest (i + 1) lines
      else
        let depth := computeIndentDepth line indentUnit in
        parseContentLoop commentPattern indentUnit rest (i + 1)
          (lines ++ [mkParsedLine (i + 1) depth trimmed])
  end.

Definition DIFF_HEADER_PREFIXES : list jsstring :=
  [js "diff "; js "index "; js "+++"; js "---"; js "@@"].

Definition isDiffHeader (line : jsstring) : bool :=
  List.existsb (fun prefix => startsWith line prefix) DIFF_HEADER_PREFIXES.

(** ['additions' | 'deletions' | 'both'] *)
Inductive Include := additions | deletions | both.

Definition shouldIncludeLine (line : jsstring) (include : Include) : bool :=
  let isAddition := startsWith line (js "+") in
  let isDeletion := startsWith line (js "-") in
  if negb isAddition && negb isDeletion then false
  else match include with
       | additions => isAddition
       | deletions => isDeletion
       | both => true
       end.

Definition extractDiffCodeLines (rawLines : list jsstring) : list jsstring :=
  List.map slice1
    (List.filter
       (fun line =>
          negb (startsWith line (js "+++"))
          && negb (startsWith line (js "---")))
       (List.filter
          (fun line => startsWith line (js "+") || startsWith line (js "-"))
          rawLines)).

(** The body of the [for] loop of [parseDiff]; the state is the counter
    [lineNumber] and the array [lines] built so far. *)
Fixpoint parseDiffLoop (commentPattern : option RegExp) (indentUnit : Z)
    (include : Include) (rawLines : list jsstring)
    (lineNumber : Z) (lines : list ParsedLine) : list ParsedLine :=
  match rawLines with
  | [] => lines
  | line :: rest =>
      if isDiffHeader line then
        parseDiffLoop commentPattern indentUnit include rest lineNumber lines
      else if negb (shouldIncludeLine line include) then
        parseDiffLoop commentPattern indentUnit include rest lineNumber lines
      else
        let content := slice1 line in
        let trimmed := trim content in
        let lineNumber := lineNumber + 1 in
        if Nat.eqb (length trimmed) 0 then
          parseDiffLoop commentPattern indentUnit include rest lineNumber
            lines
        else if isComment commentPattern content then
          parseDiffLoop commentPattern indentUnit include rest lineNumber
            lines
        else
          parseDiffLoop commentPattern indentUnit include rest lineNumber
            (lines ++ [mkParsedLine lineNumber
                         (computeIndentDepth content indentUnit) trimmed])
  end.

Section Parser.
(** The default export of [detect-indent]. *)
Variable detectIndent : jsstring -> Indent.

Definition parseContent (content : jsstring) (options : ParseOptions.t)
    : ParseResult :=
  let commentPattern :=
    default (Some DEFAULT_COMMENT_PATTERN)
      (ParseOptions.commentPattern options) in
  let rawLines := split content in
  let detected := detectIndent content in
  let indentUnit :=
    match type detected with
    | Some tab => 1
    | _ => if amount detected =? 0 then 1 else amount detected
    end in
  let lines := parseContentLoop commentPattern indentUnit rawLines 0 [] in
  {| lines := lines; indentUnit := indentUnit |}.

Definition parseDiff (diff : jsstring) (include : Include)
    (options : ParseOptions.t) : ParseResult :=
  let commentPattern :=
    default (Some DEFAULT_COMMENT_PATTERN)
      (ParseOptions.commentPattern options) in
  let rawLines := split diff in
  let codeLines := extractDiffCodeLines rawLines in
  let codeContent := join codeLines in
  let detected := detectIndent codeContent in
  let indentUnit :=
    match type detected with
    | Some tab => 1
    | _ => if amount detected =? 0 then 1 else amount detected
    end in
  let lines :=
    parseDiffLoop commentPattern indentUnit include rawLines 0 [] in
  {| lines := lines; indentUnit := indentUnit |}.
End Parser.

(* ================================================================== *)
(** ** analyze.ts and analyze-diff.ts *)
(* ================================================================== *)

Module AnalyzeOptions.
Record t (num : Type) := mk {
  commentPattern : option (option RegExp);
  thresholds : option (Partial.Thresholds num);
  verbose : option bool;
  includeLines : option bool
}.
Arguments mk {num}.
Arguments commentPattern {num}.
Arguments thresholds {num}.
Arguments verbose {num}.
Arguments includeLines {num}.
End AnalyzeOptions.

Module DiffOptions.
Record t (num : Type) := mk {
  commentPattern : option (option RegExp);
  thresholds : option (Partial.Thresholds num);
  verbose : option bool;
  includeLines : option bool;
  include : option Include
}.
Arguments mk {num}.
Arguments commentPattern {num}.
Arguments thresholds {num}.
Arguments verbose {num}.
Arguments includeLines {num}.
Arguments include {num}.
End DiffOptions.

Section Analyze.
Context {num : Type} {NUM : Number num} {FMT : NumberFormat num}.
Variable detectIndent : jsstring -> Indent.

Definition analyzeComplexity (content : jsstring)
    (options : AnalyzeOptions.t num) : Result.t num :=
  let verbose := default false (AnalyzeOptions.verbose options) in
  let includeLines := default false (AnalyzeOptions.includeLines options) in
  let thresholds := AnalyzeOptions.thresholds options in
  let parsed :=
    parseContent detectIndent content
      (ParseOptions.mk (AnalyzeOptions.commentPattern options)) in
  buildResult (lines parsed)
    (BuildResultOptions.mk verbose includeLines thresholds).

Definition analyzeDiffComplexity (diff : jsstring)
    (options : DiffOptions.t num) : Result.t num :=
  let include := default additions (DiffOptions.include options) in
  let verbose := default false (DiffOptions.verbose options) in
  let includeLines := default false (DiffOptions.includeLines options) in
  let thresholds := DiffOptions.thresholds options in
  let parsed :=
    parseDiff detectIndent diff include
      (ParseOptions.mk (DiffOptions.commentPattern options)) in
  buildResult (lines parsed)
    (BuildResultOptions.mk verbose includeLines thresholds).
End Analyze.

(* ================================================================== *)
(** ** Reference descriptions the code is compared with *)
(* ================================================================== *)

(** [leading] is the leading white space of [line]: a prefix made of tabs
    and spaces that ends at the first other character. *)
Definition leadingWhitespaceOf (line leading : jsstring) : Prop :=
  exists rest,
    line = leading ++ rest
    /\ Forall (fun c => c = TAB \/ c = SPACE) leading
    /\ match rest with
       | [] => True
       | c :: _ => c <> TAB /\ c <> SPACE
       end.

(** Columns of a run of tabs and spaces: [indentUnit] for each tab, one for
    each space. *)
Definition totalColumns (leading : jsstring) (indentUnit : Z) : Z :=
  indentUnit * Z.of_nat (count_occ N.eq_dec leading TAB)
  + Z.of_nat (count_occ N.eq_dec leading SPACE).

Fixpoint filterMap {A B} (f : A -> option B) (l : list A) : list B :=
  match l with
  | [] => []
  | x :: l' =>
      match f x with
      | Some y => y :: filterMap f l'
      | None => filterMap f l'
      end
  end.

(** The elements of a list paired with consecutive numbers from [i]. *)
Fixpoint numberedFrom {A} (i : Z) (l : list A) : list (Z * A) :=
  match l with
  | [] => []
  | x :: l' => (i, x) :: numberedFrom (i + 1) l'
  end.

(** What one physical line at 0-based index [i] contributes to
    [parseContent]. *)
Definition contentLine (commentPattern : option RegExp) (indentUnit : Z)
    (numbered : Z * jsstring) : option ParsedLine :=
  let (i, line) := numbered in
  if Nat.eqb (length (trim line)) 0 then None
  else if isComment commentPattern line then None
  else Some (mkParsedLine (i + 1) (computeIndentDepth line indentUnit)
               (trim line)).

(** The gate of [parseDiff]: not a diff header, and on a selected side. *)
Definition passesGate (include : Include) (line : jsstring) : bool :=
  negb (isDiffHeader line) && shouldIncludeLine line include.

(** What the gate-passing line that the counter numbers [k] contributes to
    [parseDiff]. *)
Definition diffLine (commentPattern : option RegExp) (indentUnit : Z)
    (numbered : Z * jsstring) : option ParsedLine :=
  let (k, line) := numbered in
  let content := slice1 line in
  if Nat.eqb (length (trim content)) 0 then None
  else if isComment commentPattern content then None
  else Some (mkParsedLine k (computeIndentDepth content indentUnit)
               (trim content)).

(** A line of a diff that carries code: marked [+] or [-] and not a
    [+++] or [---] file header. *)
Definition isDiffCodeLine (line : jsstring) : bool :=
  (startsWith line (js "+") || startsWith line (js "-"))
  && negb (startsWith line (js "+++"))
  && negb (startsWith line (js "---")).

(** The text indentation is detected on, for a diff. *)
Definition diffDetectionInput (diff : jsstring) : jsstring :=
  join (List.map slice1 (List.filter isDiffCodeLine (split diff))).

(** A diff line's content is counted: not blank and not a comment. *)
Definition isCounted (commentPattern : option RegExp) (content : jsstring)
    : bool :=
  negb (Nat.eqb (length (trim content)) 0)
  && negb (isComment commentPattern content).

(** Number of lines of [diff] that are no diff header, start with [marker]
    and whose content is counted. *)
Definition countedOnSide (commentPattern : option RegExp)
    (marker diff : jsstring) : nat :=
  length
    (List.filter
       (fun line =>
          negb (isDiffHeader line) && startsWith line marker
          && isCounted commentPattern (slice1 line))
       (split diff)).

(** [type === 'tab' ? 1 : amount || 1] *)
Definition indentUnitOf (detected : Indent) : Z :=
  match type detected with
  | Some tab => 1
  | _ => if amount detected =? 0 then 1 else amount detected
  end.


(** The result for no counted line at all. *)
Definition zeroResult {num : Type} {NUM : Number num}
    (r : Result.t num) (detailed : bool) : Prop :=
  Result.score r = ofZ 0
  /\ (detailed = true ->
      Result.lineCount r = Some 0
      /\ Result.sum r = Some (ofZ 0)
      /\ Result.mean r = Some (ofZ 0)
      /\ Result.variance r = Some (ofZ 0)
      /\ Result.stdDev r = Some (ofZ 0)
      /\ Result.median r = Some (ofZ 0)
      /\ Result.max r = Some (ofZ 0)).

(** *** Inputs of the examples *)

(** Texts of the test suite. *)
Definition nestedCode : jsstring :=
  join [js "function foo() {"; js "  if (true) {";
        js "    console.log('nested');"; js "  }"; js "}"].

Definition commentedCode : jsstring :=
  join [js "function foo() {"; js "  // this is a comment";
        js "  return 1;"; js "}"].

Definition mediumCode : jsstring :=
  join [js "a"; js "  b"; js "    c"; js "      d"; js "        e";
        js "      f"; js "    g"; js "  h"; js "i"].

(** The hunk of the test suite: two removed and two added lines. *)
Definition diffWithBoth : jsstring :=
  join [js "@@ -1,3 +1,3 @@";
        js "-old line";
        js "-  old nested";
        js "+new line";
        js "+    new deeply nested"].

(** A diff whose second added line is blank, under a hunk header that
    speaks of line 10. *)
Definition diffWithBlankAddition : jsstring :=
  join [js "@@ -10,2 +10,3 @@"; js "+first"; js "+"; js " context";
        js "+third"].

(** Two detectors that agree on every text but ["    a"]. *)
Definition detectTwoSpaces (_ : jsstring) : Indent := mkIndent 2 (Some space).

Definition detectFourOnIndentedA (text : jsstring) : Indent :=
  if bool_decide (text = js "    a") then mkIndent 4 (Some space)
  else mkIndent 2 (Some space).

(** An added line whose content is [++counter;] and a removed line whose
    content is [-- drop old rows]. *)
Definition diffWithDoubledMarkers : jsstring :=
  join [js "@@ -1,2 +1,2 @@";
        js "--- drop old rows";
        js "-y = 0";
        js "+++counter;";
        js "+x = 1"].

(** *** Further descriptions *)

(** The comment pattern is left to the default or switched off with
    [null]. *)
Definition builtinPattern (commentPattern : option (option RegExp)) : Prop :=
  commentPattern = None \/ commentPattern = Some None.



(** A hunk with one added and two removed lines. *)
Definition diffWithOneAddition : jsstring :=
  join [js "@@ -1,2 +1,1 @@"; js "-old line"; js "-  old nested";
        js "+new line"].

(** The diff that adds every line of [content]: each physical line behind
    a [+] marker. *)
Definition asAddedFile (content : jsstring) : jsstring :=
  join (List.map (fun line => js "+" ++ line) (split content)).

(** The levels in increasing order. *)
Definition levelRank (l : ComplexityLevel) : Z :=
  match l with
  | Low => 0
  | Medium => 1
  | High => 2
  end.

(** The sum of the counts of a histogram. *)
Definition histogramTotal (histogram : gmap Z Z) : Z :=
  map_fold (fun _ count total => count + total) 0 histogram.

(** What one physical line contributes to [parseContent] when comment
    lines are kept. *)
Definition isBlank (line : jsstring) : bool :=
  Nat.eqb (length (trim line)) 0.

(* ================================================================== *)
(** * Properties *)
(* ================================================================== *)

(** ** The model on inputs of the repository's test suite *)

Section TestSuite.
Variable float_toString : float -> jsstring.
Let FMT : NumberFormat float := Float64Format float_toString.
Existing Instance FMT.

Example nested_code_statistics :
  let r := analyzeComplexity detectTwoSpaces nestedCode
             (AnalyzeOptions.mk None None (Some true) None) in
  Result.lineCount r = Some 5
  /\ Result.sum r = Some 4%float
  /\ Result.max r = Some 2%float
  /\ Result.depthHistogram r = Some {[ 0 := 2; 1 := 2; 2 := 1 ]}
  /\ Result.level r = Low.
Proof. vm_compute. repeat split. Qed.

Example median_of_even_count :
  median (computeStatistics (List.map float_ofZ [0; 1; 2; 3])) = 1.5%float
  /\ median (computeStatistics (List.map float_ofZ [0; 1; 2; 3; 4]))
     = 2%float.
Proof. vm_compute. split; reflexivity. Qed.

Example comments_are_skipped :
  Result.lineCount
    (analyzeComplexity detectTwoSpaces commentedCode
       (AnalyzeOptions.mk None None (Some true) None)) = Some 3
  /\ Result.lineCount
       (analyzeComplexity detectTwoSpaces commentedCode
          (AnalyzeOptions.mk (Some None) None (Some true) None)) = Some 4.
Proof. vm_compute. split; reflexivity. Qed.

Example default_comment_pattern_matches :
  List.map DEFAULT_COMMENT_PATTERN
    [js "// comment"; js "  // indented"; js "/* start */";
     js " * continuation"; js "# comment"; js "<!-- comment -->";
     js "-- SQL comment"; js "const x = 1;"; js "function foo() {"]
  = [true; true; true; true; true; true; true; false; false].
Proof. vm_compute. reflexivity. Qed.

Example medium_code_assessment :
  let r := analyzeComplexity detectTwoSpaces mediumCode
             (AnalyzeOptions.mk None None None None) in
  Result.level r = Medium
  /\ Result.reason r
     = js "Score 4.9 exceeds medium threshold (" ++ float_toString 4%float
       ++ js ")".
Proof. vm_compute. split; reflexivity. Qed.

Example strict_thresholds :
  Result.level
    (analyzeComplexity detectTwoSpaces (join [js "a"; js "  b"; js "    c"])
       (AnalyzeOptions.mk None
          (Some (Partial.mk (Some 0.5%float) (Some 1%float))) None None))
  = High.
Proof. vm_compute. reflexivity. Qed.

Example lines_are_listed :
  Result.lines
    (analyzeComplexity detectTwoSpaces
       (join [js "function foo() {"; js "  return 1;"; js "}"])
       (AnalyzeOptions.mk None None None (Some true)))
  = Some [LineDetail.mk 1 0 (js "function foo() {");
          LineDetail.mk 2 1 (js "return 1;");
          LineDetail.mk 3 0 (js "}")].
Proof. vm_compute. reflexivity. Qed.

End TestSuite.

(** ** Statistics: score, variance and mean *)

Section ExactSums.
Local Open Scope R_scope.







End ExactSums.






(** ** Assessment: tiers and thresholds *)

Lemma includes_middle (a b c : jsstring) : includes (a ++ b ++ c) b.
Proof. exists a, c. reflexivity. Qed.

Lemma includes_middle2 (a b c d e : jsstring) :
  includes (a ++ b ++ c ++ d ++ e) d.
Proof.
  exists (a ++ b ++ c), e. rewrite <- !app_assoc. reflexivity.
Qed.

(** [nearestTenths m e] is the integer nearest to [10 * m * 2^e], the
    larger one when two are equally near: with [p / q = 2^e],
    [-1/2 <= 10 * m * p / q - n < 1/2]. *)
Lemma nearestTenths_nearest (m : positive) (e : Z) :
  let p := 2 ^ Z.max 0 e in
  let q := 2 ^ Z.max 0 (- e) in
  let n := nearestTenths m e in
  - q <= 2 * (10 * Z.pos m * p - n * q) < q /\ 0 <= n.
Proof.
  intros p q n. subst n. unfold nearestTenths. fold p q.
  assert (Hq : 0 < q) by (apply Z.pow_pos_nonneg; lia).
  assert (Hp : 0 < p) by (apply Z.pow_pos_nonneg; lia).
  set (numer := 10 * Z.pos m * p).
  assert (Hn : 0 < numer) by (unfold numer; nia).
  pose proof (Z.div_mod (2 * numer + q) (2 * q) ltac:(lia)) as Hdm.
  pose proof (Z.mod_pos_bound (2 * numer + q) (2 * q) ltac:(lia)) as Hb.
  split; [nia|].
  apply Z.div_pos; lia.
Qed.

Section AssessmentProperties.
Context {num : Type} {NUM : Number num} {FMT : NumberFormat num}.

Lemma assessComplexity_high (score : num) (t : Thresholds num) :
  geb score (high t) = true ->
  assessComplexity score t
  = {| level := High;
       reason := js "Score " ++ toFixed1 score
                 ++ js " exceeds high threshold ("
                 ++ numberToString (high t) ++ js ")" |}.
Proof. intros Hh. unfold assessComplexity. rewrite Hh. reflexivity. Qed.

Lemma assessComplexity_medium (score : num) (t : Thresholds num) :
  geb score (high t) = false ->
  geb score (medium t) = true ->
  assessComplexity score t
  = {| level := Medium;
       reason := js "Score " ++ toFixed1 score
                 ++ js " exceeds medium threshold ("
                 ++ numberToString (medium t) ++ js ")" |}.
Proof.
  intros Hh Hm. unfold assessComplexity. rewrite Hh, Hm. reflexivity.
Qed.

Lemma assessComplexity_low (score : num) (t : Thresholds num) :
  geb score (high t) = false ->
  geb score (medium t) = false ->
  assessComplexity score t
  = {| level := Low;
       reason := js "Score indicates simple, low-nesting code" |}.
Proof.
  intros Hh Hm. unfold assessComplexity. rewrite Hh, Hm. reflexivity.
Qed.

Lemma resolveThresholds_cases (u : option (Partial.Thresholds num)) :
  resolveThresholds u
  = match u with
    | None => {| medium := ofZ 4; high := ofZ 10 |}
    | Some {| Partial.medium := m; Partial.high := h |} =>
        {| medium := match m with Some x => x | None => ofZ 4 end;
           high := match h with Some x => x | None => ofZ 10 end |}
    end.
Proof. destruct u as [[[m|] [h|]]|]; reflexivity. Qed.

End AssessmentProperties.

(** C2: [assessComplexity] tests [score >= high] first and then
    [score >= medium], both inclusive; the reason of the [High] and
    [Medium] levels contains [score.toFixed(1)] and the threshold that was
    reached, the reason of [Low] is a fixed text without digits;
    [resolveThresholds] fills every omitted field from the defaults
    [medium = 4], [high = 10]. On binary64, [toFixed(1)] prints the nearest
    tenth, and with the thresholds [{4, 10}] the scores [3.9], [4.0] and
    [10.0] are [Low], [Medium] and [High]. *)
Theorem assessComplexity_tiers :
  (forall (num : Type) (NUM : Number num) (FMT : NumberFormat num)
          (score : num) (t : Thresholds num),
      let a := assessComplexity score t in
      (geb score (high t) = true ->
         level a = High
         /\ reason a = js "Score " ++ toFixed1 score
                       ++ js " exceeds high threshold ("
                       ++ numberToString (high t) ++ js ")"
         /\ includes (reason a) (toFixed1 score)
         /\ includes (reason a) (numberToString (high t)))
      /\ (geb score (high t) = false -> geb score (medium t) = true ->
         level a = Medium
         /\ reason a = js "Score " ++ toFixed1 score
                       ++ js " exceeds medium threshold ("
                       ++ numberToString (medium t) ++ js ")"
         /\ includes (reason a) (toFixed1 score)
         /\ includes (reason a) (numberToString (medium t)))
      /\ (geb score (high t) = false -> geb score (medium t) = false ->
         level a = Low
         /\ reason a = js "Score indicates simple, low-nesting code"
         /\ List.existsb isDigit (reason a) = false))
  /\ (forall (num : Type) (NUM : Number num)
             (m h : option num),
      resolveThresholds None = {| medium := ofZ 4; high := ofZ 10 |}
      /\ resolveThresholds (Some (Partial.mk m h))
         = {| medium := match m with Some x => x | None => ofZ 4 end;
              high := match h with Some x => x | None => ofZ 10 end |})
  /\ (forall (float_toString : float -> jsstring) (x : float)
             (s : bool) (m : positive) (e : Z),
      Prim2SF x = S754_finite s m e ->
      atLeast1e21 m e = false ->
      let n := nearestTenths m e in
      toFixed1 (NumberFormat := Float64Format float_toString) x
      = (if s then js "-" else [])
        ++ digitsOfZ (n / 10) ++ js "." ++ digitsOfZ (n mod 10)
      /\ - 2 ^ Z.max 0 (- e)
         <= 2 * (10 * Z.pos m * 2 ^ Z.max 0 e - n * 2 ^ Z.max 0 (- e))
         < 2 ^ Z.max 0 (- e))
  /\ (forall (FMT : NumberFormat float),
      let t := {| medium := 4%float; high := 10%float |} in
      level (assessComplexity 3.9%float t) = Low
      /\ level (assessComplexity 4.0%float t) = Medium
      /\ level (assessComplexity 10.0%float t) = High).
Proof.
  split; [|split; [|split]].
  - intros num NUM FMT score t a. subst a. repeat split.
    + rewrite assessComplexity_high by assumption. reflexivity.
    + rewrite assessComplexity_high by assumption. reflexivity.
    + rewrite assessComplexity_high by assumption. cbn [reason].
      apply includes_middle.
    + rewrite assessComplexity_high by assumption. cbn [reason].
      apply includes_middle2.
    + rewrite assessComplexity_medium by assumption. reflexivity.
    + rewrite assessComplexity_medium by assumption. reflexivity.
    + rewrite assessComplexity_medium by assumption. cbn [reason].
      apply includes_middle.
    + rewrite assessComplexity_medium by assumption. cbn [reason].
      apply includes_middle2.
    + rewrite assessComplexity_low by assumption. reflexivity.
    + rewrite assessComplexity_low by assumption. reflexivity.
    + rewrite assessComplexity_low by assumption. vm_compute. reflexivity.
  - intros num NUM m h. split; [reflexivity|].
    rewrite resolveThresholds_cases. reflexivity.
  - intros ts x s m e Hx Hlt n. split.
    + cbn [toFixed1 Float64Format]. unfold float_toFixed1.
      rewrite Hx, Hlt. reflexivity.
    + apply (nearestTenths_nearest m e).
  - intros FMT t. subst t. repeat split.
Qed.

Lemma assessComplexity_tiers_witness :
  let FMT := Float64Format (fun _ => js "10") in
  let a := assessComplexity 10%float {| medium := 4%float; high := 10%float |} in
  level a = High
  /\ reason a = js "Score 10.0 exceeds high threshold (10)".
Proof.
  intros FMT a.
  destruct (proj1 (proj1 assessComplexity_tiers float Float64 FMT 10%float
              {| medium := 4%float; high := 10%float |}))
    as (Hl & Hr & _); [vm_compute; reflexivity|].
  subst a. split; [exact Hl|]. rewrite Hr. vm_compute. reflexivity.
Defined.

(** C3, as stated, fails: with the thresholds [medium = 10], [high = 4] and
    the score [5], which lies between them, the level is [High]. *)
Lemma high_branch_reached_between_swapped_thresholds :
  ~ (forall (FMT : NumberFormat float) (score : float) (t : Thresholds float),
       PrimFloat.ltb (high t) (medium t) = true ->
       PrimFloat.leb (high t) score = true ->
       PrimFloat.ltb score (medium t) = true ->
       level (assessComplexity score t) <> High).
Proof.
  intros Hall.
  apply (Hall (Float64Format (fun _ => []))
           5%float {| medium := 10%float; high := 4%float |});
    vm_compute; reflexivity.
Qed.

(** C3 (amended): whatever the order of the two thresholds, every score
    with [score >= high] takes the [High] branch; so with [medium > high]
    every score between the two ([high <= score < medium]) is [High], and
    a result of level [Medium] always has [score < high]. *)
Theorem high_branch_taken_from_high_upwards
    {num : Type} {NUM : Number num} {FMT : NumberFormat num}
    (score : num) (t : Thresholds num) :
  geb score (high t) = true ->
  level (assessComplexity score t) = High
  /\ level (assessComplexity score t) <> Medium.
Proof.
  intros Hh. rewrite assessComplexity_high by assumption.
  split; [reflexivity | discriminate].
Qed.

Lemma high_branch_taken_from_high_upwards_witness :
  let FMT := Float64Format (fun _ => []) in
  level (assessComplexity 5%float {| medium := 10%float; high := 4%float |})
  = High.
Proof.
  intros FMT.
  apply (high_branch_taken_from_high_upwards (FMT := FMT) 5%float
           {| medium := 10%float; high := 4%float |}).
  vm_compute. reflexivity.
Defined.

(** ** Depth of a line *)

Lemma takeWhile_leading (line leading : jsstring) :
  leadingWhitespaceOf line leading ->
  takeWhile isTabOrSpace line = leading.
Proof.
  intros (rest & -> & Hall & Hrest).
  induction Hall as [|c leading Hc Hall IH]; simpl.
  - destruct rest as [|c rest]; [reflexivity|].
    simpl. destruct Hrest as [Ht Hs].
    unfold isTabOrSpace, char_eqb.
    destruct (N.eqb_spec c TAB); [contradiction|].
    destruct (N.eqb_spec c SPACE); [contradiction|]. reflexivity.
  - rewrite IH. destruct Hc as [-> | ->]; reflexivity.
Qed.

Lemma leadingWhitespaceOf_takeWhile (line : jsstring) :
  leadingWhitespaceOf line (takeWhile isTabOrSpace line).
Proof.
  exists (dropWhile isTabOrSpace line).
  induction line as [|c line (IHeq & IHall & IHrest)]; simpl.
  - repeat split; constructor.
  - destruct (isTabOrSpace c) eqn:Hc.
    + repeat split.
      * simpl. f_equal. exact IHeq.
      * constructor; [|exact IHall].
        unfold isTabOrSpace, char_eqb in Hc.
        destruct (N.eqb_spec c TAB); [left; assumption|].
        destruct (N.eqb_spec c SPACE); [right; assumption|discriminate].
      * exact IHrest.
    + repeat split; [constructor | |];
        intros ->; vm_compute in Hc; discriminate.
Qed.

Lemma charCount_columns (leading : jsstring) (u acc : Z) :
  Forall (fun c => c = TAB \/ c = SPACE) leading ->
  fold_left
    (fun charCount char => charCount + (if char_eqb char TAB then u else 1))
    leading acc
  = acc + totalColumns leading u.
Proof.
  intros Hall. revert acc. unfold totalColumns.
  induction Hall as [|c leading Hc Hall IH]; intros acc.
  - simpl. lia.
  - cbn [fold_left]. rewrite IH.
    destruct Hc as [-> | ->]; cbn [count_occ];
      change (char_eqb TAB TAB) with true;
      change (char_eqb SPACE TAB) with false.
    + destruct (N.eq_dec TAB TAB) as [_|]; [|congruence].
      destruct (N.eq_dec TAB SPACE) as [Hx|_]; [discriminate Hx|]. lia.
    + destruct (N.eq_dec SPACE TAB) as [Hx|_]; [discriminate Hx|].
      destruct (N.eq_dec SPACE SPACE) as [_|]; [|congruence]. lia.
Qed.

Lemma computeIndentDepth_columns (line leading : jsstring) (u : Z) :
  leadingWhitespaceOf line leading ->
  computeIndentDepth line u = totalColumns leading u / u.
Proof.
  intros Hlead. unfold computeIndentDepth.
  rewrite (takeWhile_leading line leading Hlead).
  destruct Hlead as (rest & _ & Hall & _).
  rewrite charCount_columns by assumption. reflexivity.
Qed.

(** ** The two parsing loops as maps over numbered lines *)

Lemma parseContentLoop_spec (cp : option RegExp) (u : Z)
    (rawLines : list jsstring) (i : Z) (acc : list ParsedLine) :
  parseContentLoop cp u rawLines i acc
  = acc ++ filterMap (contentLine cp u) (numberedFrom i rawLines).
Proof.
  revert i acc. induction rawLines as [|line rest IH]; intros i acc.
  - simpl. rewrite app_nil_r. reflexivity.
  - cbn [parseContentLoop numberedFrom filterMap contentLine].
    destruct (Nat.eqb (length (trim line)) 0); [apply IH|].
    destruct (isComment cp line); [apply IH|].
    rewrite IH, <- app_assoc. reflexivity.
Qed.

Lemma parseDiffLoop_spec (cp : option RegExp) (u : Z) (include : Include)
    (rawLines : list jsstring) (n : Z) (acc : list ParsedLine) :
  parseDiffLoop cp u include rawLines n acc
  = acc ++ filterMap (diffLine cp u)
             (numberedFrom (n + 1) (List.filter (passesGate include) rawLines)).
Proof.
  revert n acc. induction rawLines as [|line rest IH]; intros n acc.
  - simpl. rewrite app_nil_r. reflexivity.
  - cbn [parseDiffLoop List.filter]. unfold passesGate at 1.
    destruct (isDiffHeader line); cbn [negb andb]; [apply IH|].
    destruct (shouldIncludeLine line include); cbn [negb]; [|apply IH].
    cbn [numberedFrom filterMap diffLine].
    destruct (Nat.eqb (length (trim (slice1 line))) 0); [apply IH|].
    destruct (isComment cp (slice1 line)); [apply IH|].
    rewrite IH, <- app_assoc. reflexivity.
Qed.

Lemma In_numberedFrom {A} (l : list A) (i k : Z) (x : A) :
  In (k, x) (numberedFrom i l) -> In x l /\ i <= k < i + Z.of_nat (length l).
Proof.
  revert i. induction l as [|y l IH]; intros i; simpl; [tauto|].
  intros [Heq | Hin].
  - inversion Heq; subst. split; [left; reflexivity | lia].
  - apply IH in Hin. destruct Hin as [Hin Hk]. split; [right; exact Hin | lia].
Qed.

Lemma In_filterMap {A B} (f : A -> option B) (l : list A) (y : B) :
  In y (filterMap f l) <-> exists x, In x l /\ f x = Some y.
Proof.
  induction l as [|x l IH]; simpl.
  - split; [tauto | intros (x & [] & _)].
  - destruct (f x) as [z|] eqn:Hfx; simpl; rewrite IH; split.
    + intros [-> | (x' & Hin & Hf)]; [exists x; auto | exists x'; auto].
    + intros (x' & [-> | Hin] & Hf);
        [left; congruence | right; exists x'; auto].
    + intros (x' & Hin & Hf). exists x'; auto.
    + intros (x' & [-> | Hin] & Hf); [congruence | exists x'; auto].
Qed.

Lemma extractDiffCodeLines_spec (rawLines : list jsstring) :
  extractDiffCodeLines rawLines
  = List.map slice1 (List.filter isDiffCodeLine rawLines).
Proof.
  unfold extractDiffCodeLines, isDiffCodeLine. f_equal.
  induction rawLines as [|l ls IH]; [reflexivity|]. cbn [List.filter].
  destruct (startsWith l (js "+") || startsWith l (js "-"));
    cbn [List.filter andb]; [|exact IH].
  rewrite IH. reflexivity.
Qed.

Lemma diffDetectionInput_spec (diff : jsstring) :
  join (extractDiffCodeLines (split diff)) = diffDetectionInput diff.
Proof.
  unfold diffDetectionInput. rewrite extractDiffCodeLines_spec. reflexivity.
Qed.

Lemma parseDiff_spec (detectIndent : jsstring -> Indent) (diff : jsstring)
    (include : Include) (options : ParseOptions.t) :
  let cp := default (Some DEFAULT_COMMENT_PATTERN)
              (ParseOptions.commentPattern options) in
  let u := indentUnitOf (detectIndent (diffDetectionInput diff)) in
  parseDiff detectIndent diff include options
  = {| lines :=
         filterMap (diffLine cp u)
           (numberedFrom 1 (List.filter (passesGate include) (split diff)));
       indentUnit := u |}.
Proof.
  intros cp u. unfold parseDiff.
  rewrite diffDetectionInput_spec, parseDiffLoop_spec. reflexivity.
Qed.

Lemma indentUnitOf_floor (detected : Indent) :
  0 <= amount detected ->
  indentUnitOf detected
  = match type detected with
    | Some tab => 1
    | _ => Z.max 1 (amount detected)
    end
  /\ 1 <= indentUnitOf detected.
Proof.
  intros Hnonneg. unfold indentUnitOf.
  destruct (type detected) as [[|]|];
    destruct (Z.eqb_spec (amount detected) 0); lia.
Qed.

(** ** Blank input *)

Lemma dropWhile_all {A} (p : A -> bool) (l : list A) :
  forallb p l = true -> dropWhile p l = [].
Proof.
  induction l as [|x l IH]; simpl; [reflexivity|].
  destruct (p x); simpl; [exact IH | discriminate].
Qed.

Lemma trim_blank (l : jsstring) :
  forallb isWhiteSpace l = true -> trim l = [].
Proof.
  intros Hall. unfold trim. rewrite (dropWhile_all _ _ Hall). reflexivity.
Qed.

Lemma split_blank (s : jsstring) :
  forallb isWhiteSpace s = true ->
  List.Forall (fun l => forallb isWhiteSpace l = true) (split s).
Proof.
  induction s as [|c s IH]; simpl.
  - intros _. repeat constructor.
  - intros Hall. apply andb_true_iff in Hall. destruct Hall as [Hc Hall].
    specialize (IH Hall).
    destruct (char_eqb c LF).
    + constructor; [reflexivity | exact IH].
    + destruct (split s) as [|l ls].
      * repeat constructor. simpl. rewrite Hc. reflexivity.
      * inversion IH as [|? ? Hl Hls]; subst.
        constructor; [|exact Hls]. simpl. rewrite Hc, Hl. reflexivity.
Qed.

Lemma blank_line_is_unmarked (l : jsstring) :
  forallb isWhiteSpace l = true ->
  startsWith l (js "+") = false /\ startsWith l (js "-") = false.
Proof.
  destruct l as [|c l]; [split; reflexivity|].
  change (js "+") with [43%N]. change (js "-") with [45%N].
  cbn [forallb startsWith]. intros Hall.
  apply andb_true_iff in Hall. destruct Hall as [Hc _].
  unfold char_eqb.
  split.
  - destruct (N.eqb_spec c 43%N) as [->|]; [discriminate Hc | reflexivity].
  - destruct (N.eqb_spec c 45%N) as [->|]; [discriminate Hc | reflexivity].
Qed.

Lemma blank_lines_contribute_nothing (cp : option RegExp) (u i : Z)
    (rawLines : list jsstring) :
  List.Forall (fun l => forallb isWhiteSpace l = true) rawLines ->
  filterMap (contentLine cp u) (numberedFrom i rawLines) = [].
Proof.
  intros Hall. revert i.
  induction Hall as [|l ls Hl Hls IH]; intros i; [reflexivity|].
  cbn [numberedFrom filterMap contentLine].
  rewrite (trim_blank l Hl). cbn. apply IH.
Qed.

Lemma blank_lines_fail_gate (include : Include) (rawLines : list jsstring) :
  List.Forall (fun l => forallb isWhiteSpace l = true) rawLines ->
  List.filter (passesGate include) rawLines = [].
Proof.
  intros Hall. induction Hall as [|l ls Hl Hls IH]; [reflexivity|].
  cbn [List.filter]. unfold passesGate at 1, shouldIncludeLine.
  destruct (blank_line_is_unmarked l Hl) as [-> ->].
  cbn [negb andb]. rewrite andb_false_r. exact IH.
Qed.

Lemma parseContent_blank (detectIndent : jsstring -> Indent)
    (content : jsstring) (options : ParseOptions.t) :
  forallb isWhiteSpace content = true ->
  lines (parseContent detectIndent content options) = [].
Proof.
  intros Hall. unfold parseContent. cbn [lines].
  rewrite parseContentLoop_spec. cbn [app].
  apply blank_lines_contribute_nothing, split_blank, Hall.
Qed.

Lemma parseDiff_blank (detectIndent : jsstring -> Indent)
    (diff : jsstring) (include : Include) (options : ParseOptions.t) :
  forallb isWhiteSpace diff = true ->
  lines (parseDiff detectIndent diff include options) = [].
Proof.
  intros Hall. unfold parseDiff. cbn [lines].
  rewrite parseDiffLoop_spec. cbn [app].
  rewrite (blank_lines_fail_gate include (split diff) (split_blank _ Hall)).
  reflexivity.
Qed.

Lemma buildResult_nil {num : Type} {NUM : Number num}
    {FMT : NumberFormat num} (options : BuildResultOptions.t num) :
  let r := buildResult [] options in
  let t := resolveThresholds (BuildResultOptions.userThresholds options) in
  zeroResult r (BuildResultOptions.verbose options
                || BuildResultOptions.includeLines options)
  /\ Result.level r = level (assessComplexity (ofZ 0) t).
Proof.
  destruct options as [v i u]. unfold zeroResult.
  destruct v, i; cbn; repeat split; intros; try discriminate; reflexivity.
Qed.

Lemma buildResult_nil_assessment {num : Type} {NUM : Number num}
    {FMT : NumberFormat num} (options : BuildResultOptions.t num) :
  let r := buildResult [] options in
  let a := assessComplexity (ofZ 0)
             (resolveThresholds (BuildResultOptions.userThresholds options)) in
  Result.level r = level a /\ Result.reason r = reason a.
Proof.
  destruct options as [v i u]. destruct v, i; split; reflexivity.
Qed.

(** C5, as stated, fails: the level of the empty input is not [Low] for
    every caller. With the thresholds [{ high: 0 }] the score [0] reaches
    the high threshold and the level is [High]; with [{ medium: 0 }] it is
    [Medium]; for [analyzeComplexity] and for [analyzeDiffComplexity]. *)
Lemma blank_input_is_not_low_for_zero_thresholds :
  let detectIndent := fun _ : jsstring => mkIndent 0 None in
  let FMT := Float64Format (fun _ => []) in
  let highZero := Some (Partial.mk None (Some 0%float)) in
  let mediumZero := Some (Partial.mk (Some 0%float) None) in
  Result.level
    (analyzeComplexity detectIndent []
       (AnalyzeOptions.mk None highZero None None)) = High
  /\ Result.level
       (analyzeComplexity detectIndent []
          (AnalyzeOptions.mk None mediumZero None None)) = Medium
  /\ Result.level
       (analyzeDiffComplexity detectIndent []
          (DiffOptions.mk None highZero None None None)) = High
  /\ Result.level
       (analyzeComplexity detectIndent []
          (AnalyzeOptions.mk None highZero None None)) <> Low.
Proof.
  cbv zeta. repeat split; try (vm_compute; reflexivity).
  vm_compute. discriminate.
Qed.

(** C5 (amended): for an empty or white-space-only input both
    [analyzeComplexity] and [analyzeDiffComplexity] return a complete
    result with [score = 0]; when [verbose] or [includeLines] is set,
    [lineCount] is [0] and [sum], [mean], [variance], [stdDev], [median]
    and [max] are [0]; level and reason are those of [assessComplexity]
    for the score [0], so the level is [Low] whenever both resolved
    thresholds are above [0], as the defaults are (on binary64 the score is
    the float [0], not [NaN]). *)
Theorem blank_input_gives_zero_result
    (detectIndent : jsstring -> Indent) (input : jsstring) :
  forallb isWhiteSpace input = true ->
  (forall (num : Type) (NUM : Number num) (FMT : NumberFormat num)
          (o : AnalyzeOptions.t num),
      let r := analyzeComplexity detectIndent input o in
      let t := resolveThresholds (AnalyzeOptions.thresholds o) in
      zeroResult r (default false (AnalyzeOptions.verbose o)
                    || default false (AnalyzeOptions.includeLines o))
      /\ Result.level r = level (assessComplexity (ofZ 0) t)
      /\ Result.reason r = reason (assessComplexity (ofZ 0) t)
      /\ (geb (ofZ 0) (high t) = false -> geb (ofZ 0) (medium t) = false ->
          Result.level r = Low))
  /\ (forall (num : Type) (NUM : Number num) (FMT : NumberFormat num)
             (o : DiffOptions.t num),
      let r := analyzeDiffComplexity detectIndent input o in
      let t := resolveThresholds (DiffOptions.thresholds o) in
      zeroResult r (default false (DiffOptions.verbose o)
                    || default false (DiffOptions.includeLines o))
      /\ Result.level r = level (assessComplexity (ofZ 0) t)
      /\ Result.reason r = reason (assessComplexity (ofZ 0) t)
      /\ (geb (ofZ 0) (high t) = false -> geb (ofZ 0) (medium t) = false ->
          Result.level r = Low))
  /\ (forall (FMT : NumberFormat float)
             (cp : option (option RegExp)) (v i : option bool)
             (inc : option Include),
      let r := analyzeComplexity detectIndent input
                 (AnalyzeOptions.mk cp None v i) in
      let r' := analyzeDiffComplexity detectIndent input
                  (DiffOptions.mk cp None v i inc) in
      Result.score r = 0%float /\ Result.level r = Low
      /\ Result.score r' = 0%float /\ Result.level r' = Low).
Proof.
  intros Hblank.
  assert (Hlow : forall (num : Type) (NUM : Number num)
                   (FMT : NumberFormat num) (t : Thresholds num),
             geb (ofZ 0) (high t) = false -> geb (ofZ 0) (medium t) = false ->
             level (assessComplexity (ofZ 0) t) = Low).
  { intros num NUM FMT t Hh Hm. rewrite assessComplexity_low by assumption.
    reflexivity. }
  split; [|split].
  - intros num NUM FMT o r t. subst r t. unfold analyzeComplexity.
    rewrite parseContent_blank by assumption.
    set (options := BuildResultOptions.mk
                      (default false (AnalyzeOptions.verbose o))
                      (default false (AnalyzeOptions.includeLines o))
                      (AnalyzeOptions.thresholds o)).
    destruct (buildResult_nil options) as [Hzero _].
    destruct (buildResult_nil_assessment options) as [Hlevel Hreason].
    split; [exact Hzero|]. split; [exact Hlevel|]. split; [exact Hreason|].
    intros Hh Hm. rewrite Hlevel. apply Hlow; assumption.
  - intros num NUM FMT o r t. subst r t. unfold analyzeDiffComplexity.
    rewrite parseDiff_blank by assumption.
    set (options := BuildResultOptions.mk
                      (default false (DiffOptions.verbose o))
                      (default false (DiffOptions.includeLines o))
                      (DiffOptions.thresholds o)).
    destruct (buildResult_nil options) as [Hzero _].
    destruct (buildResult_nil_assessment options) as [Hlevel Hreason].
    split; [exact Hzero|]. split; [exact Hlevel|]. split; [exact Hreason|].
    intros Hh Hm. rewrite Hlevel. apply Hlow; assumption.
  - intros FMT cp v i inc r r'. subst r r'.
    unfold analyzeComplexity, analyzeDiffComplexity.
    rewrite parseContent_blank, parseDiff_blank by assumption.
    cbn [AnalyzeOptions.verbose AnalyzeOptions.includeLines
         AnalyzeOptions.thresholds DiffOptions.verbose
         DiffOptions.includeLines DiffOptions.thresholds].
    destruct (default false v), (default false i); repeat split.
Qed.

Lemma blank_input_gives_zero_result_witness :
  let detectIndent := fun _ : jsstring => mkIndent 0 None in
  let FMT := Float64Format (fun _ => []) in
  let r := analyzeComplexity detectIndent (js "  " ++ [LF; TAB; LF])
             (AnalyzeOptions.mk None None (Some true) None) in
  Result.score r = 0%float /\ Result.level r = Low.
Proof.
  intros detectIndent FMT r.
  destruct (proj2 (proj2 (blank_input_gives_zero_result detectIndent
                            (js "  " ++ [LF; TAB; LF]) eq_refl))
              FMT None (Some true) None None) as (Hscore & Hlevel & _).
  split; assumption.
Defined.

(** ** Diff lines: sides, counts and numbering *)

Lemma shouldIncludeLine_spec (line : jsstring) (include : Include) :
  shouldIncludeLine line include
  = match include with
    | additions => startsWith line (js "+")
    | deletions => startsWith line (js "-")
    | both => startsWith line (js "+") || startsWith line (js "-")
    end.
Proof.
  unfold shouldIncludeLine.
  destruct include, (startsWith line (js "+")), (startsWith line (js "-"));
    reflexivity.
Qed.

Lemma addition_is_no_deletion (line : jsstring) :
  startsWith line (js "+") = true -> startsWith line (js "-") = false.
Proof.
  destruct line as [|c line]; [discriminate|].
  change (js "+") with [43%N]. change (js "-") with [45%N].
  cbn [startsWith]. unfold char_eqb.
  destruct (N.eqb_spec c 43%N) as [->|]; [reflexivity | discriminate].
Qed.

Lemma filter_filter_andb {A} (p q : A -> bool) (l : list A) :
  List.filter q (List.filter p l) = List.filter (fun x => p x && q x) l.
Proof.
  induction l as [|x l IH]; [reflexivity|]. cbn [List.filter].
  destruct (p x); cbn [List.filter andb]; rewrite IH; reflexivity.
Qed.

Lemma length_diffLines (cp : option RegExp) (u i : Z) (l : list jsstring) :
  length (filterMap (diffLine cp u) (numberedFrom i l))
  = length (List.filter (fun line => isCounted cp (slice1 line)) l).
Proof.
  revert i. induction l as [|line l IH]; intros i; [reflexivity|].
  cbn [numberedFrom filterMap diffLine List.filter]. unfold isCounted at 1.
  destruct (Nat.eqb (length (trim (slice1 line))) 0); cbn [negb andb];
    [apply IH|].
  destruct (isComment cp (slice1 line)); cbn [negb length];
    [apply IH | f_equal; apply IH].
Qed.

Lemma length_filter_ext {A} (p q : A -> bool) (l : list A) :
  (forall x, p x = q x) ->
  length (List.filter p l) = length (List.filter q l).
Proof.
  intros Hpq. induction l as [|x l IH]; [reflexivity|].
  cbn [List.filter]. rewrite Hpq. destruct (q x); cbn [length]; lia.
Qed.

Lemma length_filter_disjoint {A} (p q : A -> bool) (l : list A) :
  (forall x, p x = true -> q x = false) ->
  length (List.filter (fun x => p x || q x) l)
  = (length (List.filter p l) + length (List.filter q l))%nat.
Proof.
  intros Hdisj. induction l as [|x l IH]; [reflexivity|].
  cbn [List.filter]. destruct (p x) eqn:Hp.
  - rewrite (Hdisj x Hp). cbn [orb length]. lia.
  - destruct (q x); cbn [orb length]; lia.
Qed.

Lemma parseDiff_lineCount (detectIndent : jsstring -> Indent)
    (diff : jsstring) (include : Include) (options : ParseOptions.t) :
  let cp := default (Some DEFAULT_COMMENT_PATTERN)
              (ParseOptions.commentPattern options) in
  length (lines (parseDiff detectIndent diff include options))
  = length
      (List.filter
         (fun line => passesGate include line && isCounted cp (slice1 line))
         (split diff)).
Proof.
  intros cp. rewrite parseDiff_spec. cbn [lines].
  rewrite length_diffLines, filter_filter_andb. reflexivity.
Qed.

Lemma parseDiff_lineCount_sides (detectIndent : jsstring -> Indent)
    (diff : jsstring) (options : ParseOptions.t) :
  let cp := default (Some DEFAULT_COMMENT_PATTERN)
              (ParseOptions.commentPattern options) in
  length (lines (parseDiff detectIndent diff additions options))
  = countedOnSide cp (js "+") diff
  /\ length (lines (parseDiff detectIndent diff deletions options))
     = countedOnSide cp (js "-") diff
  /\ length (lines (parseDiff detectIndent diff both options))
     = (countedOnSide cp (js "+") diff + countedOnSide cp (js "-") diff)%nat.
Proof.
  intros cp. rewrite !parseDiff_lineCount. fold cp. unfold countedOnSide.
  split; [|split].
  - apply length_filter_ext. intros line. unfold passesGate.
    rewrite shouldIncludeLine_spec. reflexivity.
  - apply length_filter_ext. intros line. unfold passesGate.
    rewrite shouldIncludeLine_spec. reflexivity.
  - rewrite <- length_filter_disjoint.
    + apply length_filter_ext. intros line. unfold passesGate.
      rewrite shouldIncludeLine_spec.
      destruct (isDiffHeader line), (startsWith line (js "+")),
        (startsWith line (js "-")), (isCounted cp (slice1 line));
        reflexivity.
    + intros line Hplus.
      apply andb_true_iff in Hplus. destruct Hplus as [Hplus _].
      apply andb_true_iff in Hplus. destruct Hplus as [_ Hplus].
      rewrite (addition_is_no_deletion line Hplus).
      rewrite andb_false_r. reflexivity.
Qed.

Lemma buildResult_lineCount {num : Type} {NUM : Number num}
    {FMT : NumberFormat num} (ls : list ParsedLine)
    (options : BuildResultOptions.t num) :
  BuildResultOptions.verbose options
  || BuildResultOptions.includeLines options = true ->
  Result.lineCount (buildResult ls options) = Some (Z.of_nat (length ls)).
Proof.
  destruct options as [[|] [|] u]; cbn; intros Hv;
    try discriminate Hv; reflexivity.
Qed.

(** C6: [shouldIncludeLine] takes a line for an addition exactly when it
    starts with [+] and for a deletion exactly when it starts with [-], and
    keeps the additions, the deletions or both as [include] says; every
    line [parseDiff] returns comes from a raw line that is no diff header
    and carries the marker of a selected side, so lines with neither marker
    are never analysed; an omitted [include] is [additions]; with the
    default comment pattern or [null], [lineCount] is the number of
    non-blank, non-comment lines of the selected side(s), the additions
    when [include] is omitted; on the test hunk with two added and two
    removed lines [lineCount] is [2] by default and [4] for [both], on a
    hunk with one added and two removed lines [1] by default, [2] for
    [deletions] and [3] for [both]. *)
Theorem diff_sides_selected_by_include :
  (forall (line : jsstring) (include : Include),
      shouldIncludeLine line include
      = match include with
        | additions => startsWith line (js "+")
        | deletions => startsWith line (js "-")
        | both => startsWith line (js "+") || startsWith line (js "-")
        end)
  /\ (forall (detectIndent : jsstring -> Indent) (diff : jsstring)
             (include : Include) (options : ParseOptions.t),
      Forall
        (fun l => exists raw,
             In raw (split diff)
             /\ isDiffHeader raw = false
             /\ match include with
                | additions => startsWith raw (js "+") = true
                | deletions => startsWith raw (js "-") = true
                | both => startsWith raw (js "+") = true
                          \/ startsWith raw (js "-") = true
                end
             /\ content l = trim (slice1 raw))
        (lines (parseDiff detectIndent diff include options)))
  /\ (forall (detectIndent : jsstring -> Indent) (diff : jsstring)
             (options : ParseOptions.t),
      builtinPattern (ParseOptions.commentPattern options) ->
      let cp := default (Some DEFAULT_COMMENT_PATTERN)
                  (ParseOptions.commentPattern options) in
      length (lines (parseDiff detectIndent diff additions options))
      = countedOnSide cp (js "+") diff
      /\ length (lines (parseDiff detectIndent diff deletions options))
         = countedOnSide cp (js "-") diff
      /\ length (lines (parseDiff detectIndent diff both options))
         = (countedOnSide cp (js "+") diff
            + countedOnSide cp (js "-") diff)%nat)
  /\ (forall (num : Type) (NUM : Number num) (FMT : NumberFormat num)
             (detectIndent : jsstring -> Indent) (diff : jsstring)
             (commentPattern : option (option RegExp))
             (thresholds : option (Partial.Thresholds num))
             (verbose includeLines : option bool),
      analyzeDiffComplexity detectIndent diff
        (DiffOptions.mk commentPattern thresholds verbose includeLines None)
      = analyzeDiffComplexity detectIndent diff
          (DiffOptions.mk commentPattern thresholds verbose includeLines
             (Some additions)))
  /\ (forall (num : Type) (NUM : Number num) (FMT : NumberFormat num)
             (detectIndent : jsstring -> Indent) (diff : jsstring)
             (commentPattern : option (option RegExp))
             (thresholds : option (Partial.Thresholds num))
             (verbose includeLines : option bool),
      builtinPattern commentPattern ->
      default false verbose || default false includeLines = true ->
      let cp := default (Some DEFAULT_COMMENT_PATTERN) commentPattern in
      let lineCountFor := fun include : option Include =>
        Result.lineCount
          (analyzeDiffComplexity detectIndent diff
             (DiffOptions.mk commentPattern thresholds verbose includeLines
                include)) in
      lineCountFor None = Some (Z.of_nat (countedOnSide cp (js "+") diff))
      /\ lineCountFor (Some additions)
         = Some (Z.of_nat (countedOnSide cp (js "+") diff))
      /\ lineCountFor (Some deletions)
         = Some (Z.of_nat (countedOnSide cp (js "-") diff))
      /\ lineCountFor (Some both)
         = Some (Z.of_nat (countedOnSide cp (js "+") diff
                           + countedOnSide cp (js "-") diff)))
  /\ (forall (num : Type) (NUM : Number num) (FMT : NumberFormat num)
             (detectIndent : jsstring -> Indent),
      countedOnSide (Some DEFAULT_COMMENT_PATTERN) (js "+") diffWithBoth
      = 2%nat
      /\ countedOnSide (Some DEFAULT_COMMENT_PATTERN) (js "-") diffWithBoth
         = 2%nat
      /\ Result.lineCount
           (analyzeDiffComplexity detectIndent diffWithBoth
              (DiffOptions.mk None None (Some true) None None))
         = Some 2
      /\ Result.lineCount
           (analyzeDiffComplexity detectIndent diffWithBoth
              (DiffOptions.mk None None (Some true) None (Some both)))
         = Some 4
      /\ Result.lineCount
           (analyzeDiffComplexity detectIndent diffWithOneAddition
              (DiffOptions.mk None None (Some true) None None))
         = Some 1
      /\ Result.lineCount
           (analyzeDiffComplexity detectIndent diffWithOneAddition
              (DiffOptions.mk None None (Some true) None (Some deletions)))
         = Some 2
      /\ Result.lineCount
           (analyzeDiffComplexity detectIndent diffWithOneAddition
              (DiffOptions.mk None None (Some true) None (Some both)))
         = Some 3).
Proof.
  assert (Hcounts :
    forall (num : Type) (NUM : Number num) (FMT : NumberFormat num)
           (detectIndent : jsstring -> Indent) (diff : jsstring)
           (commentPattern : option (option RegExp))
           (thresholds : option (Partial.Thresholds num))
           (verbose includeLines : option bool),
      default false verbose || default false includeLines = true ->
      let cp := default (Some DEFAULT_COMMENT_PATTERN) commentPattern in
      let lineCountFor := fun include : option Include =>
        Result.lineCount
          (analyzeDiffComplexity detectIndent diff
             (DiffOptions.mk commentPattern thresholds verbose includeLines
                include)) in
      lineCountFor None = Some (Z.of_nat (countedOnSide cp (js "+") diff))
      /\ lineCountFor (Some additions)
         = Some (Z.of_nat (countedOnSide cp (js "+") diff))
      /\ lineCountFor (Some deletions)
         = Some (Z.of_nat (countedOnSide cp (js "-") diff))
      /\ lineCountFor (Some both)
         = Some (Z.of_nat (countedOnSide cp (js "+") diff
                           + countedOnSide cp (js "-") diff))).
  { intros num NUM FMT detectIndent diff commentPattern thresholds verbose
      includeLines Hdetailed cp lineCountFor. subst lineCountFor.
    cbv beta. unfold analyzeDiffComplexity.
    cbn [default from_option Datatypes.id DiffOptions.include
         DiffOptions.commentPattern DiffOptions.verbose
         DiffOptions.includeLines DiffOptions.thresholds] in *.
    rewrite !buildResult_lineCount by exact Hdetailed.
    destruct (parseDiff_lineCount_sides detectIndent diff
                (ParseOptions.mk commentPattern)) as (Hadd & Hdel & Hboth).
    cbn [ParseOptions.commentPattern] in Hadd, Hdel, Hboth.
    rewrite Hadd, Hdel, Hboth. repeat split. }
  split; [exact shouldIncludeLine_spec|].
  split; [|split; [|split; [|split]]].
  - intros detectIndent diff include options.
    rewrite parseDiff_spec. cbn [lines].
    apply List.Forall_forall. intros l Hin.
    apply In_filterMap in Hin. destruct Hin as ([k raw] & Hin & Hline).
    apply In_numberedFrom in Hin. destruct Hin as [Hin _].
    apply filter_In in Hin. destruct Hin as [Hin Hgate].
    unfold passesGate in Hgate. apply andb_true_iff in Hgate.
    destruct Hgate as [Hhdr Hside]. apply negb_true_iff in Hhdr.
    rewrite shouldIncludeLine_spec in Hside.
    exists raw. split; [exact Hin|]. split; [exact Hhdr|]. split.
    + destruct include; try exact Hside.
      apply orb_true_iff in Hside. exact Hside.
    + unfold diffLine in Hline.
      destruct (Nat.eqb (length (trim (slice1 raw))) 0); [discriminate|].
      destruct (isComment _ (slice1 raw)); [discriminate|].
      inversion Hline. reflexivity.
  - intros detectIndent diff options _.
    apply parseDiff_lineCount_sides.
  - intros num NUM FMT detectIndent diff commentPattern thresholds verbose
      includeLines. reflexivity.
  - intros num NUM FMT detectIndent diff commentPattern thresholds verbose
      includeLines _ Hdetailed.
    apply Hcounts. exact Hdetailed.
  - intros num NUM FMT detectIndent.
    split; [reflexivity|]. split; [reflexivity|].
    destruct (Hcounts num NUM FMT detectIndent diffWithBoth None None
                (Some true) None eq_refl) as (Hdefault & _ & _ & Hboth).
    destruct (Hcounts num NUM FMT detectIndent diffWithOneAddition None None
                (Some true) None eq_refl) as (Hdefault' & _ & Hdel' & Hboth').
    cbv zeta beta in Hdefault, Hboth, Hdefault', Hdel', Hboth'.
    rewrite Hdefault, Hboth, Hdefault', Hdel', Hboth'.
    repeat split.
Qed.

Lemma diff_sides_selected_by_include_witness :
  let FMT := Float64Format (fun _ => []) in
  Result.lineCount
    (analyzeDiffComplexity detectTwoSpaces diffWithOneAddition
       (DiffOptions.mk None None (Some true) None None))
  = Some 1.
Proof.
  intros FMT.
  apply (proj1 (proj1 (proj2 (proj2 (proj2 (proj2
           diff_sides_selected_by_include))))
           float Float64 FMT detectTwoSpaces diffWithOneAddition None None
           (Some true) None (or_introl eq_refl) eq_refl)).
Defined.

Lemma diffLine_lineNumber (cp : option RegExp) (u k : Z) (raw : jsstring)
    (l : ParsedLine) :
  diffLine cp u (k, raw) = Some l ->
  lineNumber l = k
  /\ content l = trim (slice1 raw)
  /\ depth l = computeIndentDepth (slice1 raw) u
  /\ isCounted cp (slice1 raw) = true.
Proof.
  unfold diffLine, isCounted.
  destruct (Nat.eqb (length (trim (slice1 raw))) 0); [discriminate|].
  destruct (isComment cp (slice1 raw)); [discriminate|].
  intros Hl. inversion Hl. repeat split.
Qed.

Lemma diffLines_numbers_from (cp : option RegExp) (u i : Z)
    (l : list jsstring) :
  List.Forall (fun n => i <= n)
    (List.map lineNumber (filterMap (diffLine cp u) (numberedFrom i l))).
Proof.
  revert i. induction l as [|raw l IH]; intros i; [constructor|].
  cbn [numberedFrom filterMap].
  assert (Hrest : List.Forall (fun n => i <= n)
            (List.map lineNumber
               (filterMap (diffLine cp u) (numberedFrom (i + 1) l)))).
  { eapply List.Forall_impl; [|apply IH]. cbv beta. intros; lia. }
  destruct (diffLine cp u (i, raw)) as [pl|] eqn:Hpl; [|exact Hrest].
  cbn [List.map]. constructor; [|exact Hrest].
  apply diffLine_lineNumber in Hpl. lia.
Qed.

Lemma diffLines_numbers_increase (cp : option RegExp) (u i : Z)
    (l : list jsstring) :
  StronglySorted Z.lt
    (List.map lineNumber (filterMap (diffLine cp u) (numberedFrom i l))).
Proof.
  revert i. induction l as [|raw l IH]; intros i; [constructor|].
  cbn [numberedFrom filterMap].
  destruct (diffLine cp u (i, raw)) as [pl|] eqn:Hpl; [|apply IH].
  cbn [List.map]. constructor; [apply IH|].
  apply diffLine_lineNumber in Hpl. destruct Hpl as [-> _].
  eapply List.Forall_impl; [|apply (diffLines_numbers_from cp u (i + 1) l)].
  cbv beta. intros; lia.
Qed.

Lemma numberedFrom_nth_error {A} (l : list A) (i k : Z) (x : A) :
  In (k, x) (numberedFrom i l) ->
  nth_error l (Z.to_nat (k - i)) = Some x.
Proof.
  revert i. induction l as [|y l IH]; intros i; simpl; [tauto|].
  intros [Heq | Hin].
  - inversion Heq; subst. rewrite Z.sub_diag. reflexivity.
  - pose proof (In_numberedFrom _ _ _ _ Hin) as [_ Hk].
    apply IH in Hin.
    replace (Z.to_nat (k - i)) with (S (Z.to_nat (k - (i + 1)))) by lia.
    exact Hin.
Qed.

(** C7: the [lineNumber] of a line returned by [parseDiff] is the position,
    counted from 1, of its raw line among the raw lines that pass the
    header and inclusion gate, whether or not the lines before it were then
    dropped as blank or comment; the numbers are strictly increasing, lie
    between 1 and the number of gate-passing lines, and can leave gaps (the
    diff above gives 1 and 3); hunk headers and context lines never enter
    the count. *)
Theorem diff_line_numbers_count_gate_passing_lines
    (detectIndent : jsstring -> Indent) (diff : jsstring)
    (include : Include) (options : ParseOptions.t) :
  let cp := default (Some DEFAULT_COMMENT_PATTERN)
              (ParseOptions.commentPattern options) in
  let gated := List.filter (passesGate include) (split diff) in
  let parsed := parseDiff detectIndent diff include options in
  lines parsed
  = filterMap (diffLine cp (indentUnit parsed)) (numberedFrom 1 gated)
  /\ Forall
       (fun l => exists raw,
            nth_error gated (Z.to_nat (lineNumber l - 1)) = Some raw
            /\ 1 <= lineNumber l <= Z.of_nat (length gated)
            /\ content l = trim (slice1 raw)
            /\ isCounted cp (slice1 raw) = true)
       (lines parsed)
  /\ (forall (k : nat) (raw : jsstring),
         nth_error gated k = Some raw ->
         isCounted cp (slice1 raw) = true ->
         exists l, In l (lines parsed) /\ lineNumber l = Z.of_nat k + 1)
  /\ StronglySorted Z.lt (List.map lineNumber (lines parsed))
  /\ List.map lineNumber
       (lines (parseDiff detectIndent diffWithBlankAddition additions
                 (ParseOptions.mk None)))
     = [1; 3].
Proof.
  intros cp gated parsed. subst parsed.
  rewrite !parseDiff_spec. cbn [lines indentUnit]. fold cp. fold gated.
  set (u := indentUnitOf (detectIndent (diffDetectionInput diff))).
  split; [reflexivity|]. split; [|split; [|split]].
  - apply List.Forall_forall. intros l Hin.
    apply In_filterMap in Hin. destruct Hin as ([k raw] & Hin & Hline).
    apply diffLine_lineNumber in Hline.
    destruct Hline as (Hk & Hcontent & _ & Hcounted).
    pose proof (In_numberedFrom _ _ _ _ Hin) as [_ Hrange].
    apply numberedFrom_nth_error in Hin.
    exists raw. rewrite Hk. repeat split; try assumption; lia.
  - intros k raw Hnth Hcounted.
    exists (mkParsedLine (Z.of_nat k + 1)
              (computeIndentDepth (slice1 raw) u) (trim (slice1 raw))).
    split; [|reflexivity].
    apply In_filterMap. exists (Z.of_nat k + 1, raw). split.
    + clear - Hnth. revert k Hnth. generalize 1 as i.
      induction gated as [|y l IH]; intros i k Hnth.
      * destruct k; discriminate Hnth.
      * destruct k as [|k]; cbn [nth_error] in Hnth.
        -- inversion Hnth; subst. left; f_equal; lia.
        -- right. replace (Z.of_nat (S k) + i) with (Z.of_nat k + (i + 1))
             by lia.
           apply IH. exact Hnth.
    + unfold diffLine. unfold isCounted in Hcounted.
      apply andb_true_iff in Hcounted. destruct Hcounted as [Hb Hc].
      apply negb_true_iff in Hb, Hc. rewrite Hb, Hc. reflexivity.
  - apply diffLines_numbers_increase.
  - reflexivity.
Qed.

Lemma diff_line_numbers_count_gate_passing_lines_witness :
  let detectIndent := fun _ : jsstring => mkIndent 2 (Some space) in
  exists l,
    In l (lines (parseDiff detectIndent diffWithBlankAddition additions
                   (ParseOptions.mk None)))
    /\ lineNumber l = 3.
Proof.
  intros detectIndent.
  apply (proj1 (proj2 (proj2
           (diff_line_numbers_count_gate_passing_lines detectIndent
              diffWithBlankAddition additions (ParseOptions.mk None))))
           2%nat (js "+third")); reflexivity.
Defined.

(** ** Indent detection on a diff *)

(** C8: [parseDiff] calls the detector on one text only, the lines of the
    diff that start with [+] or [-] but not with [+++] or [---], each
    without its first character, joined by newlines; the indent unit and
    every depth are computed from that call, whatever [include] is; the raw
    diff text itself is not what the detector sees. *)
Theorem diff_indent_detected_on_marked_lines :
  (forall (rawLines : list jsstring),
      extractDiffCodeLines rawLines
      = List.map slice1 (List.filter isDiffCodeLine rawLines))
  /\ (forall (detectIndent : jsstring -> Indent) (diff : jsstring)
             (include : Include) (options : ParseOptions.t),
      let parsed := parseDiff detectIndent diff include options in
      indentUnit parsed = indentUnitOf (detectIndent (diffDetectionInput diff))
      /\ Forall
           (fun l => exists raw,
                In raw (split diff)
                /\ depth l
                   = computeIndentDepth (slice1 raw)
                       (indentUnitOf
                          (detectIndent (diffDetectionInput diff))))
           (lines parsed))
  /\ (forall (detectIndent : jsstring -> Indent) (diff : jsstring)
             (include include' : Include) (options options' : ParseOptions.t),
      indentUnit (parseDiff detectIndent diff include options)
      = indentUnit (parseDiff detectIndent diff include' options'))
  /\ (forall (detectIndent detectIndent' : jsstring -> Indent)
             (diff : jsstring) (include : Include)
             (options : ParseOptions.t),
      detectIndent (diffDetectionInput diff)
      = detectIndent' (diffDetectionInput diff) ->
      parseDiff detectIndent diff include options
      = parseDiff detectIndent' diff include options)
  /\ (let diff := js "+    a" in
      diffDetectionInput diff = js "    a"
      /\ detectTwoSpaces diff = detectFourOnIndentedA diff
      /\ List.map depth
           (lines (parseDiff detectTwoSpaces diff additions
                     (ParseOptions.mk None))) = [2]
      /\ List.map depth
           (lines (parseDiff detectFourOnIndentedA diff additions
                     (ParseOptions.mk None))) = [1]).
Proof.
  split; [exact extractDiffCodeLines_spec|]. split; [|split; [|split]].
  - intros detectIndent diff include options parsed. subst parsed.
    rewrite parseDiff_spec. cbn [indentUnit lines].
    split; [reflexivity|].
    apply List.Forall_forall. intros l Hin.
    apply In_filterMap in Hin. destruct Hin as ([k raw] & Hin & Hline).
    apply In_numberedFrom in Hin. destruct Hin as [Hin _].
    apply filter_In in Hin. destruct Hin as [Hin _].
    apply diffLine_lineNumber in Hline. destruct Hline as (_ & _ & Hd & _).
    exists raw. split; assumption.
  - intros detectIndent diff include include' options options'.
    rewrite !parseDiff_spec. reflexivity.
  - intros detectIndent detectIndent' diff include options Hagree.
    rewrite !parseDiff_spec, Hagree. reflexivity.
  - cbv zeta. repeat split.
Qed.

Lemma diff_indent_detected_on_marked_lines_witness :
  parseDiff detectTwoSpaces (js "+  a") additions (ParseOptions.mk None)
  = parseDiff detectFourOnIndentedA (js "+  a") additions
      (ParseOptions.mk None).
Proof.
  apply (proj1 (proj2 (proj2 (proj2 diff_indent_detected_on_marked_lines)))
           detectTwoSpaces detectFourOnIndentedA (js "+  a") additions
           (ParseOptions.mk None)).
  reflexivity.
Defined.

(** ** Result shapes *)

Lemma buildResult_with_lines {num : Type} {NUM : Number num}
    {FMT : NumberFormat num} (parsed : list ParsedLine) (verbose : bool)
    (u : option (Partial.Thresholds num)) :
  buildResult parsed (BuildResultOptions.mk verbose true u)
  = let stats := computeStatistics (List.map ofZ (List.map depth parsed)) in
    let a := assessComplexity (score stats) (resolveThresholds u) in
    Result.mk (score stats) (level a) (reason a)
      (Some (Z.of_nat (length parsed)))
      (Some (max stats)) (Some (variance stats)) (Some (mean stats))
      (Some (stdDev stats)) (Some (median stats)) (Some (sum stats))
      (Some (buildHistogram (List.map depth parsed)))
      (Some (List.map
               (fun l => LineDetail.mk (lineNumber l) (depth l) (content l))
               parsed)).
Proof. destruct verbose; reflexivity. Qed.

Lemma buildResult_without_lines {num : Type} {NUM : Number num}
    {FMT : NumberFormat num} (parsed : list ParsedLine) (verbose : bool)
    (u : option (Partial.Thresholds num)) :
  Result.lines (buildResult parsed (BuildResultOptions.mk verbose false u))
  = None.
Proof. destruct verbose; reflexivity. Qed.

(** C9: a result of [buildResult] (hence of [analyzeComplexity] and
    [analyzeDiffComplexity]) that has the property [lines] also has
    [lineCount], [max], [variance], [mean], [stdDev], [median], [sum] and
    [depthHistogram], with [lineCount] the length of [lines]; and [lines] is
    there whenever [includeLines] is set, with or without [verbose]. *)
Theorem lines_imply_verbose_fields
    {num : Type} {NUM : Number num} {FMT : NumberFormat num}
    (parsed : list ParsedLine) (options : BuildResultOptions.t num)
    (details : list LineDetail.t) :
  let r := buildResult parsed options in
  Result.lines r = Some details ->
  BuildResultOptions.includeLines options = true
  /\ details
     = List.map
         (fun l => LineDetail.mk (lineNumber l) (depth l) (content l)) parsed
  /\ Result.lineCount r = Some (Z.of_nat (length details))
  /\ is_Some (Result.max r) /\ is_Some (Result.variance r)
  /\ is_Some (Result.mean r) /\ is_Some (Result.stdDev r)
  /\ is_Some (Result.median r) /\ is_Some (Result.sum r)
  /\ is_Some (Result.depthHistogram r)
  /\ (forall (verbose : bool) (u : option (Partial.Thresholds num)),
         Result.lines
           (buildResult parsed (BuildResultOptions.mk verbose true u))
         = Some details)
  /\ (forall (detectIndent : jsstring -> Indent) (text : jsstring)
             (o : AnalyzeOptions.t num) (d : DiffOptions.t num),
         AnalyzeOptions.includeLines o = Some true ->
         DiffOptions.includeLines d = Some true ->
         let r1 := analyzeComplexity detectIndent text o in
         let r2 := analyzeDiffComplexity detectIndent text d in
         (exists ld, Result.lines r1 = Some ld
                     /\ Result.lineCount r1 = Some (Z.of_nat (length ld)))
         /\ (exists ld, Result.lines r2 = Some ld
                        /\ Result.lineCount r2 = Some (Z.of_nat (length ld)))).
Proof.
  intros r. subst r. destruct options as [v i u].
  destruct i.
  2: { rewrite buildResult_without_lines. discriminate. }
  rewrite buildResult_with_lines.
  cbn [Result.lines Result.lineCount Result.max Result.variance Result.mean
       Result.stdDev Result.median Result.sum Result.depthHistogram
       BuildResultOptions.includeLines].
  intros Hlines. inversion Hlines as [Hdetails]. rewrite length_map.
  split; [reflexivity|]. split; [reflexivity|]. split; [reflexivity|].
  do 7 (split; [eexists; reflexivity|]).
  split.
  { intros verbose u'. rewrite buildResult_with_lines. reflexivity. }
  intros detectIndent text o d Ho Hd.
  unfold analyzeComplexity, analyzeDiffComplexity. rewrite Ho, Hd.
  cbn [default from_option Datatypes.id].
  rewrite !buildResult_with_lines. cbn [Result.lines Result.lineCount].
  split; eexists; (split; [reflexivity|]); rewrite length_map; reflexivity.
Qed.

Lemma lines_imply_verbose_fields_witness :
  let FMT := Float64Format (fun _ => []) in
  let r := buildResult [mkParsedLine 1 0 (js "a"); mkParsedLine 2 1 (js "b")]
             (BuildResultOptions.mk false true None) in
  Result.lineCount r = Some 2.
Proof.
  intros FMT r.
  apply (lines_imply_verbose_fields (FMT := FMT)
           [mkParsedLine 1 0 (js "a"); mkParsedLine 2 1 (js "b")]
           (BuildResultOptions.mk false true None)
           [LineDetail.mk 1 0 (js "a"); LineDetail.mk 2 1 (js "b")]).
  reflexivity.
Defined.

(** ** Lines that look like file headers *)

Lemma triple_marker_is_header (line : jsstring) :
  startsWith line (js "+++") = true \/ startsWith line (js "---") = true ->
  isDiffHeader line = true.
Proof.
  unfold isDiffHeader. cbn [List.existsb DIFF_HEADER_PREFIXES].
  intros [-> | ->]; rewrite ?orb_true_r; reflexivity.
Qed.

Lemma triple_marker_is_no_code_line (line : jsstring) :
  startsWith line (js "+++") = true \/ startsWith line (js "---") = true ->
  isDiffCodeLine line = false.
Proof.
  unfold isDiffCodeLine.
  intros [-> | ->]; cbn [negb]; rewrite ?andb_false_r; reflexivity.
Qed.

Lemma filter_without {A} (p : A -> bool) (x : A) (before after : list A) :
  p x = false ->
  List.filter p (before ++ x :: after) = List.filter p (before ++ after).
Proof.
  intros Hx. rewrite !List.filter_app. cbn [List.filter]. rewrite Hx.
  reflexivity.
Qed.

Lemma doubled_marker_content (c : char) (content : jsstring) :
  startsWith content [c; c] = true ->
  startsWith (c :: content) [c; c; c] = true.
Proof.
  intros Hc. cbn [startsWith]. unfold char_eqb at 1.
  rewrite N.eqb_refl. exact Hc.
Qed.

(** C10: a raw diff line that begins with [+++] or [---] is a diff header
    for [parseDiff]: it fails the gate under every [include], is left out
    of the text indentation is detected on, and the result is the same as
    for the diff without that line. An added line whose content begins
    with [++], or a removed line whose content begins with [--], is such a
    raw line, so it is dropped although its side is selected. *)
Theorem triple_marker_lines_are_dropped :
  (forall (line : jsstring),
      startsWith line (js "+++") = true \/ startsWith line (js "---") = true ->
      isDiffHeader line = true
      /\ (forall include : Include, passesGate include line = false)
      /\ isDiffCodeLine line = false
      /\ (forall (detectIndent : jsstring -> Indent) (diff diff' : jsstring)
                 (before after : list jsstring) (include : Include)
                 (options : ParseOptions.t),
             split diff = before ++ line :: after ->
             split diff' = before ++ after ->
             parseDiff detectIndent diff include options
             = parseDiff detectIndent diff' include options))
  /\ (forall (content : jsstring),
         (startsWith content (js "++") = true ->
          startsWith (js "+" ++ content) (js "+++") = true
          /\ shouldIncludeLine (js "+" ++ content) additions = true
          /\ shouldIncludeLine (js "+" ++ content) both = true)
         /\ (startsWith content (js "--") = true ->
             startsWith (js "-" ++ content) (js "---") = true
             /\ shouldIncludeLine (js "-" ++ content) deletions = true
             /\ shouldIncludeLine (js "-" ++ content) both = true))
  /\ (forall (detectIndent : jsstring -> Indent),
         List.map content
           (lines (parseDiff detectIndent diffWithDoubledMarkers both
                     (ParseOptions.mk (Some None))))
         = [js "y = 0"; js "x = 1"]
         /\ List.map lineNumber
              (lines (parseDiff detectIndent diffWithDoubledMarkers both
                        (ParseOptions.mk (Some None))))
            = [1; 2]
         /\ diffDetectionInput diffWithDoubledMarkers
            = join [js "y = 0"; js "x = 1"]).
Proof.
  split; [|split].
  - intros line Hline.
    pose proof (triple_marker_is_header line Hline) as Hhdr.
    pose proof (triple_marker_is_no_code_line line Hline) as Hcode.
    assert (Hgate : forall include, passesGate include line = false).
    { intros include. unfold passesGate. rewrite Hhdr. reflexivity. }
    split; [exact Hhdr|]. split; [exact Hgate|]. split; [exact Hcode|].
    intros detectIndent diff diff' before after include options Hd Hd'.
    rewrite !parseDiff_spec. unfold diffDetectionInput.
    rewrite Hd, Hd'.
    rewrite (filter_without _ line before after (Hgate include)).
    rewrite (filter_without _ line before after Hcode).
    reflexivity.
  - intros content.
    change (js "+" ++ content) with (43%N :: content).
    change (js "-" ++ content) with (45%N :: content).
    change (js "++") with [43%N; 43%N]. change (js "--") with [45%N; 45%N].
    change (js "+++") with [43%N; 43%N; 43%N].
    change (js "---") with [45%N; 45%N; 45%N].
    split; intros Hc; (split; [apply doubled_marker_content, Hc|]);
      split; reflexivity.
  - intros detectIndent. rewrite !parseDiff_spec. repeat split.
Qed.

Lemma triple_marker_lines_are_dropped_witness :
  parseDiff detectTwoSpaces
    (join [js "+a"; js "+++b"]) both (ParseOptions.mk None)
  = parseDiff detectTwoSpaces (js "+a") both (ParseOptions.mk None).
Proof.
  refine (proj2 (proj2 (proj2
            (proj1 triple_marker_lines_are_dropped (js "+++b") _)))
            detectTwoSpaces (join [js "+a"; js "+++b"]) (js "+a")
            [js "+a"] [] both (ParseOptions.mk None) _ _).
  - left. reflexivity.
  - reflexivity.
  - reflexivity.
Defined.

(* ================================================================== *)
(** * Further properties of the parser *)
(* ================================================================== *)

(** ** Lines of a text *)

Lemma split_nonempty (s : jsstring) : split s <> [].
Proof.
  destruct s as [|c s]; simpl; [discriminate|].
  destruct (char_eqb c LF); [discriminate|].
  destruct (split s); discriminate.
Qed.

Lemma split_lines_have_no_newline (s : jsstring) :
  List.Forall (fun line => ~ In LF line) (split s).
Proof.
  induction s as [|c s IH]; simpl.
  - constructor; [intros [] | constructor].
  - destruct (char_eqb c LF) eqn:Hc.
    + constructor; [intros [] | exact IH].
    + destruct (split s) as [|l ls]; [repeat constructor|].
      * intros [Heq | []]. subst c. discriminate Hc.
      * inversion IH as [|? ? Hl Hls]; subst.
        constructor; [|exact Hls].
        intros [Heq | Hin]; [subst c; discriminate Hc | exact (Hl Hin)].
Qed.

Lemma join_split (s : jsstring) : join (split s) = s.
Proof.
  induction s as [|c s IH]; [reflexivity|]. simpl.
  destruct (char_eqb c LF) eqn:Hc.
  - apply N.eqb_eq in Hc. subst c.
    pose proof (split_nonempty s) as Hne.
    destruct (split s) as [|l ls]; [congruence|].
    cbn [join app]. rewrite <- IH. reflexivity.
  - pose proof (split_nonempty s) as Hne.
    destruct (split s) as [|l ls]; [congruence|].
    rewrite <- IH. destruct ls; reflexivity.
Qed.

Lemma split_line_without_newline (l : jsstring) :
  ~ In LF l -> split l = [l].
Proof.
  induction l as [|c l IH]; intros Hno; [reflexivity|]. simpl.
  destruct (char_eqb c LF) eqn:Hc.
  - apply N.eqb_eq in Hc. subst c. exfalso. apply Hno. left. reflexivity.
  - rewrite IH; [reflexivity|]. intros Hin. apply Hno. right. exact Hin.
Qed.

Lemma split_app_newline (l rest : jsstring) :
  ~ In LF l -> split (l ++ LF :: rest) = l :: split rest.
Proof.
  induction l as [|c l IH]; intros Hno; [reflexivity|].
  cbn [app split].
  destruct (char_eqb c LF) eqn:Hc.
  - apply N.eqb_eq in Hc. subst c. exfalso. apply Hno. left. reflexivity.
  - rewrite IH; [reflexivity|]. intros Hin. apply Hno. right. exact Hin.
Qed.

Lemma split_join (ls : list jsstring) :
  ls <> [] ->
  List.Forall (fun line => ~ In LF line) ls ->
  split (join ls) = ls.
Proof.
  intros Hne Hall. revert Hne.
  induction Hall as [|l ls Hl Hls IH]; intros Hne;
    [exfalso; apply Hne; reflexivity|].
  destruct ls as [|l' ls'].
  - cbn [join]. apply split_line_without_newline, Hl.
  - change (join (l :: l' :: ls')) with (l ++ LF :: join (l' :: ls')).
    rewrite split_app_newline by exact Hl.
    rewrite IH by discriminate. reflexivity.
Qed.

(** ** Trimmed text *)

Lemma dropWhile_head {A} (p : A -> bool) (l : list A) :
  match dropWhile p l with
  | [] => True
  | x :: _ => p x = false
  end.
Proof.
  induction l as [|x l IH]; simpl; [exact I|].
  destruct (p x) eqn:Hx; [exact IH | exact Hx].
Qed.

Lemma dropWhile_suffix {A} (p : A -> bool) (l : list A) :
  exists dropped, l = dropped ++ dropWhile p l.
Proof.
  induction l as [|x l [dropped IH]]; simpl; [exists []; reflexivity|].
  destruct (p x).
  - exists (x :: dropped). simpl. f_equal. exact IH.
  - exists []. reflexivity.
Qed.

Lemma dropWhile_fixed {A} (p : A -> bool) (l : list A) :
  match l with
  | [] => True
  | x :: _ => p x = false
  end ->
  dropWhile p l = l.
Proof.
  destruct l as [|x l]; [reflexivity|]. simpl. intros ->. reflexivity.
Qed.

(** A trimmed text starts and ends with a character that is no white
    space, and trimming it again changes nothing. *)
Lemma trim_shape (s : jsstring) :
  match trim s with
  | [] => True
  | c :: _ => isWhiteSpace c = false
  end
  /\ match rev (trim s) with
     | [] => True
     | c :: _ => isWhiteSpace c = false
     end
  /\ trim (trim s) = trim s.
Proof.
  unfold trim.
  set (a := dropWhile isWhiteSpace s).
  set (b := dropWhile isWhiteSpace (rev a)).
  pose proof (dropWhile_head isWhiteSpace s) as Ha. fold a in Ha.
  pose proof (dropWhile_head isWhiteSpace (rev a)) as Hb. fold b in Hb.
  destruct (dropWhile_suffix isWhiteSpace (rev a)) as [dropped Hsuf].
  fold b in Hsuf.
  assert (Hprefix : a = rev b ++ rev dropped).
  { rewrite <- (rev_involutive a), Hsuf, rev_app_distr. reflexivity. }
  assert (Hhead : match rev b with
                  | [] => True
                  | c :: _ => isWhiteSpace c = false
                  end).
  { destruct (rev b) as [|c r] eqn:Hr; [exact I|].
    rewrite Hprefix in Ha. exact Ha. }
  split; [exact Hhead|]. split.
  - rewrite rev_involutive. exact Hb.
  - rewrite (dropWhile_fixed isWhiteSpace (rev b) Hhead).
    rewrite rev_involutive.
    rewrite (dropWhile_fixed isWhiteSpace b Hb). reflexivity.
Qed.

(** ** Numbered lines *)

Lemma nth_error_numberedFrom {A} (l : list A) (i : Z) (k : nat) (x : A) :
  nth_error l k = Some x -> In (i + Z.of_nat k, x) (numberedFrom i l).
Proof.
  revert i k. induction l as [|y l IH]; intros i k Hnth.
  - destruct k; discriminate Hnth.
  - destruct k as [|k]; cbn [nth_error] in Hnth.
    + inversion Hnth; subst. left; f_equal; lia.
    + right. replace (i + Z.of_nat (S k)) with (i + 1 + Z.of_nat k) by lia.
      apply IH. exact Hnth.
Qed.

Lemma numbered_lines_increase {A} (f : Z * A -> option ParsedLine) (c : Z) :
  (forall k x l, f (k, x) = Some l -> lineNumber l = k + c) ->
  forall (i : Z) (xs : list A),
    List.Forall (fun n => i + c <= n)
      (List.map lineNumber (filterMap f (numberedFrom i xs)))
    /\ StronglySorted Z.lt
         (List.map lineNumber (filterMap f (numberedFrom i xs))).
Proof.
  intros Hf i xs. revert i.
  induction xs as [|x xs IH]; intros i; [split; constructor|].
  cbn [numberedFrom filterMap].
  destruct (IH (i + 1)) as [Hfrom Hsorted].
  assert (Hrest : List.Forall (fun n => i + c < n)
            (List.map lineNumber (filterMap f (numberedFrom (i + 1) xs)))).
  { eapply List.Forall_impl; [|exact Hfrom]. cbv beta. intros; lia. }
  destruct (f (i, x)) as [l|] eqn:Hl.
  - apply Hf in Hl. cbn [List.map]. rewrite Hl. split.
    + constructor; [lia|].
      eapply List.Forall_impl; [|exact Hrest]. cbv beta. intros; lia.
    + constructor; assumption.
  - split; [|exact Hsorted].
    eapply List.Forall_impl; [|exact Hrest]. cbv beta. intros; lia.
Qed.

Lemma length_filterMap_le {A B} (f : A -> option B) (l : list A) :
  (length (filterMap f l) <= length l)%nat.
Proof.
  induction l as [|x l IH]; simpl; [lia|].
  destruct (f x); simpl; lia.
Qed.

Lemma length_numberedFrom {A} (i : Z) (l : list A) :
  length (numberedFrom i l) = length l.
Proof.
  revert i. induction l as [|x l IH]; intros i; simpl; [reflexivity|].
  rewrite IH. reflexivity.
Qed.

Lemma parseContent_spec (detectIndent : jsstring -> Indent)
    (text : jsstring) (options : ParseOptions.t) :
  let cp := default (Some DEFAULT_COMMENT_PATTERN)
              (ParseOptions.commentPattern options) in
  let u := indentUnitOf (detectIndent text) in
  parseContent detectIndent text options
  = {| lines := filterMap (contentLine cp u) (numberedFrom 0 (split text));
       indentUnit := u |}.
Proof.
  intros cp u. unfold parseContent.
  rewrite parseContentLoop_spec. reflexivity.
Qed.

Lemma contentLine_fields (cp : option RegExp) (u i : Z) (raw : jsstring)
    (l : ParsedLine) :
  contentLine cp u (i, raw) = Some l ->
  lineNumber l = i + 1
  /\ content l = trim raw
  /\ depth l = computeIndentDepth raw u
  /\ isBlank raw = false
  /\ isComment cp raw = false.
Proof.
  unfold contentLine, isBlank.
  destruct (Nat.eqb (length (trim raw)) 0); [discriminate|].
  destruct (isComment cp raw); [discriminate|].
  intros Hl. inversion Hl. repeat split.
Qed.

(** C4: for [indentUnit >= 1], [computeIndentDepth] is the floor of the
    column count of the leading tabs and spaces of the line (the scan stops
    at the first other character; a tab counts [indentUnit] columns, a
    space one) over [indentUnit]; [parseContent] and [parseDiff] use the
    unit [1] when the detected type is [tab], else the detected amount
    raised to at least [1], and the depth of every line they return is
    [computeIndentDepth] of that line's own raw text under this unit; with
    the default comment pattern or [null] every counted raw line is
    returned with that depth. *)
Theorem computeIndentDepth_is_floor_of_columns :
  (forall (line leading : jsstring) (indentUnit : Z),
      1 <= indentUnit ->
      leadingWhitespaceOf line leading ->
      computeIndentDepth line indentUnit
      = totalColumns leading indentUnit / indentUnit
      /\ indentUnit * computeIndentDepth line indentUnit
         <= totalColumns leading indentUnit
         < indentUnit * (computeIndentDepth line indentUnit + 1))
  /\ (forall (line : jsstring), exists leading : jsstring,
         leadingWhitespaceOf line leading)
  /\ (forall (detectIndent : jsstring -> Indent) (content : jsstring)
             (options : ParseOptions.t),
      0 <= amount (detectIndent content) ->
      let cp := default (Some DEFAULT_COMMENT_PATTERN)
                  (ParseOptions.commentPattern options) in
      let parsed := parseContent detectIndent content options in
      let unit := match type (detectIndent content) with
                  | Some tab => 1
                  | _ => Z.max 1 (amount (detectIndent content))
                  end in
      indentUnit parsed = unit
      /\ 1 <= unit
      /\ Forall
           (fun l => exists raw,
                nth_error (split content) (Z.to_nat (lineNumber l - 1))
                = Some raw
                /\ depth l = computeIndentDepth raw unit)
           (lines parsed)
      /\ (builtinPattern (ParseOptions.commentPattern options) ->
          forall (k : nat) (raw : jsstring),
            nth_error (split content) k = Some raw ->
            isBlank raw = false ->
            isComment cp raw = false ->
            In (mkParsedLine (Z.of_nat k + 1) (computeIndentDepth raw unit)
                  (trim raw))
               (lines parsed)))
  /\ (forall (detectIndent : jsstring -> Indent) (diff : jsstring)
             (include : Include) (options : ParseOptions.t),
      0 <= amount (detectIndent (diffDetectionInput diff)) ->
      let cp := default (Some DEFAULT_COMMENT_PATTERN)
                  (ParseOptions.commentPattern options) in
      let gated := List.filter (passesGate include) (split diff) in
      let parsed := parseDiff detectIndent diff include options in
      let unit := match type (detectIndent (diffDetectionInput diff)) with
                  | Some tab => 1
                  | _ => Z.max 1
                           (amount (detectIndent (diffDetectionInput diff)))
                  end in
      indentUnit parsed = unit
      /\ 1 <= unit
      /\ Forall
           (fun l => exists raw,
                nth_error gated (Z.to_nat (lineNumber l - 1)) = Some raw
                /\ depth l = computeIndentDepth (slice1 raw) unit)
           (lines parsed)
      /\ (builtinPattern (ParseOptions.commentPattern options) ->
          forall (k : nat) (raw : jsstring),
            nth_error gated k = Some raw ->
            isCounted cp (slice1 raw) = true ->
            In (mkParsedLine (Z.of_nat k + 1)
                  (computeIndentDepth (slice1 raw) unit) (trim (slice1 raw)))
               (lines parsed))).
Proof.
  split; [|split; [|split]].
  - intros line leading u Hu Hlead.
    rewrite (computeIndentDepth_columns line leading u Hlead).
    split; [reflexivity|].
    pose proof (Z.div_mod (totalColumns leading u) u ltac:(lia)).
    pose proof (Z.mod_pos_bound (totalColumns leading u) u ltac:(lia)).
    lia.
  - intros line. exists (takeWhile isTabOrSpace line).
    apply leadingWhitespaceOf_takeWhile.
  - intros detectIndent c options Hnonneg cp parsed unit. subst parsed.
    rewrite parseContent_spec. cbn [indentUnit lines]. fold cp.
    destruct (indentUnitOf_floor _ Hnonneg) as [Hunit Hpos].
    fold unit in Hunit. rewrite Hunit.
    split; [reflexivity|]. split; [lia|]. split.
    + apply List.Forall_forall. intros l Hin.
      apply In_filterMap in Hin. destruct Hin as ([i raw] & Hin & Hline).
      apply contentLine_fields in Hline.
      destruct Hline as (Hn & _ & Hd & _).
      apply numberedFrom_nth_error in Hin.
      exists raw. rewrite Hn, Hd.
      replace (i + 1 - 1) with (i - 0) by lia. split; [exact Hin|reflexivity].
    + intros _ k raw Hnth Hb Hcm.
      apply In_filterMap. exists (Z.of_nat k, raw). split.
      * apply (nth_error_numberedFrom (split c) 0 k raw Hnth).
      * unfold contentLine. unfold isBlank in Hb. rewrite Hb, Hcm.
        reflexivity.
  - intros detectIndent d include options Hnonneg cp gated parsed unit.
    subst parsed. rewrite parseDiff_spec. cbn [indentUnit lines].
    fold cp. fold gated.
    destruct (indentUnitOf_floor _ Hnonneg) as [Hunit Hpos].
    fold unit in Hunit. rewrite Hunit.
    split; [reflexivity|]. split; [lia|]. split.
    + apply List.Forall_forall. intros l Hin.
      apply In_filterMap in Hin. destruct Hin as ([k raw] & Hin & Hline).
      apply diffLine_lineNumber in Hline.
      destruct Hline as (Hn & _ & Hd & _).
      apply numberedFrom_nth_error in Hin.
      exists raw. rewrite Hn, Hd. split; [exact Hin|reflexivity].
    + intros _ k raw Hnth Hcounted.
      apply In_filterMap. exists (Z.of_nat k + 1, raw). split.
      * rewrite Z.add_comm.
        apply (nth_error_numberedFrom gated 1 k raw Hnth).
      * unfold diffLine. unfold isCounted in Hcounted.
        apply andb_true_iff in Hcounted. destruct Hcounted as [Hb Hc].
        apply negb_true_iff in Hb, Hc. rewrite Hb, Hc. reflexivity.
Qed.

Lemma computeIndentDepth_is_floor_of_columns_witness :
  (computeIndentDepth (TAB :: js "   x") 2
   = totalColumns (TAB :: js "   ") 2 / 2
   /\ computeIndentDepth (TAB :: js "   x") 2 = 2)
  /\ In (mkParsedLine 3 2 (js "console.log('nested');"))
       (lines (parseContent detectTwoSpaces nestedCode
                 (ParseOptions.mk None)))
  /\ In (mkParsedLine 4 2 (js "new deeply nested"))
       (lines (parseDiff detectTwoSpaces diffWithBoth both
                 (ParseOptions.mk None))).
Proof.
  split; [split; [|reflexivity]|split].
  - apply (proj1 computeIndentDepth_is_floor_of_columns
             (TAB :: js "   x") (TAB :: js "   ") 2).
    + lia.
    + exists (js "x"). split; [reflexivity|]. split.
      * repeat constructor; (left; reflexivity) || (right; reflexivity).
      * split; discriminate.
  - apply (proj2 (proj2 (proj2 (proj1 (proj2 (proj2
             computeIndentDepth_is_floor_of_columns))
             detectTwoSpaces nestedCode (ParseOptions.mk None)
             ltac:(cbn; lia))))
             (or_introl eq_refl) 2%nat (js "    console.log('nested');"));
      reflexivity.
  - apply (proj2 (proj2 (proj2 (proj2 (proj2 (proj2
             computeIndentDepth_is_floor_of_columns))
             detectTwoSpaces diffWithBoth both
             (ParseOptions.mk None) ltac:(cbn; lia))))
             (or_introl eq_refl) 3%nat (js "+    new deeply nested"));
      reflexivity.
Defined.

(** X1: the [lineNumber] of a line returned by [parseContent] is the
    position, counted from 1, of its physical line in the text; the
    returned line carries that line's trimmed content and its depth under
    the detected unit, and that line is not blank; the numbers increase
    strictly and there are at most as many returned lines as physical
    lines. With the default comment pattern or [null], exactly the
    physical lines that are neither blank nor comment are returned. *)
Theorem content_line_numbers_are_positions
    (detectIndent : jsstring -> Indent) (text : jsstring)
    (options : ParseOptions.t) :
  let cp := default (Some DEFAULT_COMMENT_PATTERN)
              (ParseOptions.commentPattern options) in
  let raw := split text in
  let parsed := parseContent detectIndent text options in
  Forall
    (fun l => exists line,
         nth_error raw (Z.to_nat (lineNumber l - 1)) = Some line
         /\ 1 <= lineNumber l <= Z.of_nat (length raw)
         /\ content l = trim line
         /\ depth l = computeIndentDepth line (indentUnit parsed)
         /\ isBlank line = false)
    (lines parsed)
  /\ StronglySorted Z.lt (List.map lineNumber (lines parsed))
  /\ (length (lines parsed) <= length raw)%nat
  /\ (builtinPattern (ParseOptions.commentPattern options) ->
      Forall
        (fun l => exists line,
             nth_error raw (Z.to_nat (lineNumber l - 1)) = Some line
             /\ isComment cp line = false)
        (lines parsed)
      /\ forall (k : nat) (line : jsstring),
           nth_error raw k = Some line ->
           isBlank line = false ->
           isComment cp line = false ->
           In (mkParsedLine (Z.of_nat k + 1)
                 (computeIndentDepth line (indentUnit parsed)) (trim line))
              (lines parsed)).
Proof.
  intros cp raw parsed. subst parsed.
  rewrite parseContent_spec. cbn [lines indentUnit]. fold cp. fold raw.
  set (u := indentUnitOf (detectIndent text)).
  assert (Horigin : forall l,
            In l (filterMap (contentLine cp u) (numberedFrom 0 raw)) ->
            exists line,
              nth_error raw (Z.to_nat (lineNumber l - 1)) = Some line
              /\ 1 <= lineNumber l <= Z.of_nat (length raw)
              /\ content l = trim line
              /\ depth l = computeIndentDepth line u
              /\ isBlank line = false
              /\ isComment cp line = false).
  { intros l Hin.
    apply In_filterMap in Hin. destruct Hin as ([i line] & Hin & Hline).
    apply contentLine_fields in Hline.
    destruct Hline as (Hn & Hc & Hd & Hb & Hcm).
    pose proof (In_numberedFrom _ _ _ _ Hin) as [_ Hrange].
    apply numberedFrom_nth_error in Hin.
    exists line. rewrite Hn.
    replace (i + 1 - 1) with (i - 0) by lia.
    repeat split; try assumption; lia. }
  split; [|split; [|split]].
  - apply List.Forall_forall. intros l Hin.
    destruct (Horigin l Hin) as (line & H1 & H2 & H3 & H4 & H5 & _).
    exists line. repeat split; assumption || lia.
  - apply (numbered_lines_increase (contentLine cp u) 1).
    intros k x l Hl. apply contentLine_fields in Hl. tauto.
  - rewrite <- (length_numberedFrom 0 raw). apply length_filterMap_le.
  - intros _. split.
    + apply List.Forall_forall. intros l Hin.
      destruct (Horigin l Hin) as (line & H1 & _ & _ & _ & _ & H6).
      exists line. split; assumption.
    + intros k line Hnth Hb Hcm.
      apply In_filterMap. exists (Z.of_nat k, line). split.
      * apply (nth_error_numberedFrom raw 0 k line Hnth).
      * unfold contentLine. unfold isBlank in Hb. rewrite Hb, Hcm.
        reflexivity.
Qed.

Lemma content_line_numbers_are_positions_witness :
  In (mkParsedLine 3 1 (js "return 1;"))
    (lines (parseContent detectTwoSpaces commentedCode
              (ParseOptions.mk None))).
Proof.
  apply (proj2 (proj2 (proj2 (proj2
           (content_line_numbers_are_positions detectTwoSpaces commentedCode
              (ParseOptions.mk None)))) (or_introl eq_refl))
           2%nat (js "  return 1;"));
    reflexivity.
Defined.

(** ** Well-formed parsed lines *)

Lemma totalColumns_nonneg (leading : jsstring) (u : Z) :
  0 <= u -> 0 <= totalColumns leading u.
Proof. intros Hu. unfold totalColumns. nia. Qed.

Lemma computeIndentDepth_nonneg (line : jsstring) (u : Z) :
  1 <= u -> 0 <= computeIndentDepth line u.
Proof.
  intros Hu.
  rewrite (computeIndentDepth_columns line _ u
             (leadingWhitespaceOf_takeWhile line)).
  apply Z.div_pos; [apply totalColumns_nonneg; lia | lia].
Qed.

Lemma not_blank_trim (line : jsstring) :
  isBlank line = false -> trim line <> [].
Proof.
  unfold isBlank. intros Hb Heq. rewrite Heq in Hb. discriminate Hb.
Qed.

(** X2: every line [parseContent] or [parseDiff] returns has a line number
    of at least 1, a depth of at least 0 (the detector's amount being
    non-negative) and a content that is not empty and is trimmed: it
    neither starts nor ends with white space. *)
Theorem parsed_lines_are_well_formed
    (detectIndent : jsstring -> Indent) (text : jsstring)
    (include : Include) (options : ParseOptions.t) :
  0 <= amount (detectIndent text) ->
  0 <= amount (detectIndent (diffDetectionInput text)) ->
  let wellFormed := fun l : ParsedLine =>
    1 <= lineNumber l
    /\ 0 <= depth l
    /\ content l <> []
    /\ trim (content l) = content l
    /\ List.existsb isWhiteSpace (firstn 1 (content l)) = false
    /\ List.existsb isWhiteSpace (firstn 1 (rev (content l))) = false in
  Forall wellFormed (lines (parseContent detectIndent text options))
  /\ Forall wellFormed (lines (parseDiff detectIndent text include options)).
Proof.
  intros Hc Hd wellFormed.
  assert (Htrimmed : forall raw, trim raw <> [] ->
            trim raw <> [] /\ trim (trim raw) = trim raw
            /\ List.existsb isWhiteSpace (firstn 1 (trim raw)) = false
            /\ List.existsb isWhiteSpace (firstn 1 (rev (trim raw))) = false).
  { intros raw Hne. destruct (trim_shape raw) as (Hhead & Hlast & Hidem).
    split; [exact Hne|]. split; [exact Hidem|]. split.
    - destruct (trim raw) as [|c r]; [reflexivity|].
      cbn [firstn List.existsb]. rewrite Hhead. reflexivity.
    - destruct (rev (trim raw)) as [|c r]; [reflexivity|].
      cbn [firstn List.existsb]. rewrite Hlast. reflexivity. }
  split.
  - rewrite parseContent_spec. cbn [lines].
    destruct (indentUnitOf_floor _ Hc) as [_ Hpos].
    apply List.Forall_forall. intros l Hin.
    apply In_filterMap in Hin. destruct Hin as ([i raw] & Hin & Hline).
    apply In_numberedFrom in Hin. destruct Hin as [_ Hrange].
    apply contentLine_fields in Hline.
    destruct Hline as (Hn & Hct & Hdp & Hb & _).
    unfold wellFormed. rewrite Hn, Hct, Hdp.
    split; [lia|]. split; [apply computeIndentDepth_nonneg, Hpos|].
    apply Htrimmed, not_blank_trim, Hb.
  - rewrite parseDiff_spec. cbn [lines].
    destruct (indentUnitOf_floor _ Hd) as [_ Hpos].
    apply List.Forall_forall. intros l Hin.
    apply In_filterMap in Hin. destruct Hin as ([k raw] & Hin & Hline).
    apply In_numberedFrom in Hin. destruct Hin as [_ Hrange].
    apply diffLine_lineNumber in Hline.
    destruct Hline as (Hn & Hct & Hdp & Hcounted).
    unfold wellFormed. rewrite Hn, Hct, Hdp.
    split; [lia|]. split; [apply computeIndentDepth_nonneg, Hpos|].
    apply Htrimmed. unfold isCounted in Hcounted.
    apply andb_true_iff in Hcounted. destruct Hcounted as [Hb _].
    apply negb_true_iff in Hb. apply not_blank_trim. exact Hb.
Qed.

Lemma parsed_lines_are_well_formed_witness :
  Forall (fun l : ParsedLine => 1 <= lineNumber l /\ 0 <= depth l)
    (lines (parseContent detectTwoSpaces nestedCode (ParseOptions.mk None))).
Proof.
  eapply List.Forall_impl;
    [|apply (proj1 (parsed_lines_are_well_formed detectTwoSpaces nestedCode
                      additions (ParseOptions.mk None)
                      ltac:(cbn; lia) ltac:(cbn; lia)))].
  cbv beta. intros l H. split; apply H.
Defined.

(** X3: for [indentUnit >= 1] each leading tab is one level of depth,
    whatever the unit, and the leading spaces add the floor of their number
    over the unit; with unit 1 the depth is the number of leading tabs and
    spaces, and a line without leading tab or space has depth 0. *)
Theorem depth_counts_tabs_and_spaces
    (line leading : jsstring) (indentUnit : Z) :
  1 <= indentUnit ->
  leadingWhitespaceOf line leading ->
  computeIndentDepth line indentUnit
  = Z.of_nat (count_occ N.eq_dec leading TAB)
    + Z.of_nat (count_occ N.eq_dec leading SPACE) / indentUnit
  /\ (indentUnit = 1 ->
      computeIndentDepth line indentUnit = Z.of_nat (length leading))
  /\ (leading = [] -> computeIndentDepth line indentUnit = 0).
Proof.
  intros Hu Hlead.
  rewrite (computeIndentDepth_columns line leading indentUnit Hlead).
  unfold totalColumns.
  assert (Hsplit :
    (indentUnit * Z.of_nat (count_occ N.eq_dec leading TAB)
     + Z.of_nat (count_occ N.eq_dec leading SPACE)) / indentUnit
    = Z.of_nat (count_occ N.eq_dec leading TAB)
      + Z.of_nat (count_occ N.eq_dec leading SPACE) / indentUnit).
  { rewrite (Z.mul_comm indentUnit). apply Z.div_add_l. lia. }
  split; [exact Hsplit|]. split.
  - intros ->. rewrite Hsplit, Z.div_1_r.
    destruct Hlead as (_ & _ & Hall & _).
    clear Hsplit. induction Hall as [|c l Hc Hall IH]; [reflexivity|].
    cbn [count_occ length].
    destruct Hc as [-> | ->].
    + destruct (N.eq_dec TAB TAB) as [_|]; [|congruence].
      destruct (N.eq_dec TAB SPACE) as [Hx|_]; [discriminate Hx|]. lia.
    + destruct (N.eq_dec SPACE TAB) as [Hx|_]; [discriminate Hx|].
      destruct (N.eq_dec SPACE SPACE) as [_|]; [|congruence]. lia.
  - intros ->. cbn [count_occ]. rewrite Z.mul_0_r. reflexivity.
Qed.

Lemma depth_counts_tabs_and_spaces_witness :
  computeIndentDepth ([TAB; TAB] ++ js "     x") 4 = 2 + 5 / 4.
Proof.
  apply (depth_counts_tabs_and_spaces ([TAB; TAB] ++ js "     x")
           ([TAB; TAB] ++ js "     ") 4).
  - lia.
  - exists (js "x"). split; [reflexivity|]. split.
    + repeat constructor; (left; reflexivity) || (right; reflexivity).
    + split; discriminate.
Defined.

(** ** The default comment pattern *)

Lemma startsWith_cons (c p : char) (s prefix : jsstring) :
  startsWith (c :: s) (p :: prefix) = char_eqb c p && startsWith s prefix.
Proof. reflexivity. Qed.

Lemma whitespace_starts_no_marker (c : char) (rest : jsstring) :
  isWhiteSpace c = true ->
  List.existsb (startsWith (c :: rest)) COMMENT_MARKERS = false.
Proof.
  intros Hc.
  change COMMENT_MARKERS
    with [[47; 47]; [47; 42]; [42]; [35]; [60; 33; 45; 45]; [45; 45]]%N.
  cbn [List.existsb]. rewrite !startsWith_cons. unfold char_eqb.
  destruct (N.eqb_spec c 47) as [->|_]; [discriminate Hc|].
  destruct (N.eqb_spec c 42) as [->|_]; [discriminate Hc|].
  destruct (N.eqb_spec c 35) as [->|_]; [discriminate Hc|].
  destruct (N.eqb_spec c 60) as [->|_]; [discriminate Hc|].
  destruct (N.eqb_spec c 45) as [->|_]; [discriminate Hc|].
  reflexivity.
Qed.

Lemma DEFAULT_COMMENT_PATTERN_unfold (line : jsstring) :
  DEFAULT_COMMENT_PATTERN line
  = List.existsb (startsWith line) COMMENT_MARKERS
    || match line with
       | [] => false
       | c :: rest => isWhiteSpace c && DEFAULT_COMMENT_PATTERN rest
       end.
Proof. destruct line; reflexivity. Qed.

(** X4: the default comment pattern matches a line exactly when the line,
    without its leading white space, starts with one of [//], [/*], [*],
    [#], [<!--] or [--]; so indentation never changes whether a line is a
    comment, and a blank line is not a comment. *)
Theorem default_comment_pattern_skips_indentation :
  (forall line : jsstring,
      DEFAULT_COMMENT_PATTERN line
      = List.existsb (startsWith (dropWhile isWhiteSpace line))
          COMMENT_MARKERS)
  /\ (forall indentation line : jsstring,
         forallb isWhiteSpace indentation = true ->
         DEFAULT_COMMENT_PATTERN (indentation ++ line)
         = DEFAULT_COMMENT_PATTERN line)
  /\ (forall line : jsstring,
         forallb isWhiteSpace line = true ->
         DEFAULT_COMMENT_PATTERN line = false).
Proof.
  assert (Hgreedy : forall line : jsstring,
             DEFAULT_COMMENT_PATTERN line
             = List.existsb (startsWith (dropWhile isWhiteSpace line))
                 COMMENT_MARKERS).
  { induction line as [|c rest IH]; [reflexivity|].
    rewrite DEFAULT_COMMENT_PATTERN_unfold. cbn [dropWhile].
    destruct (isWhiteSpace c) eqn:Hc.
    - rewrite (whitespace_starts_no_marker c rest Hc). exact IH.
    - cbn [andb]. apply orb_false_r. }
  split; [exact Hgreedy|]. split.
  - intros indentation line Hws. rewrite !Hgreedy. f_equal.
    induction indentation as [|c ind IH]; [reflexivity|].
    cbn [forallb] in Hws. apply andb_true_iff in Hws.
    destruct Hws as [Hc Hws]. cbn [app dropWhile]. rewrite Hc.
    apply IH, Hws.
  - intros line Hws. rewrite Hgreedy, (dropWhile_all _ _ Hws). reflexivity.
Qed.

Lemma default_comment_pattern_skips_indentation_witness :
  DEFAULT_COMMENT_PATTERN ([TAB; SPACE] ++ js "# note")
  = DEFAULT_COMMENT_PATTERN (js "# note").
Proof.
  apply (proj1 (proj2 default_comment_pattern_skips_indentation)
           [TAB; SPACE] (js "# note")).
  reflexivity.
Defined.

(** ** Comment filtering only removes lines *)

Lemma filterMap_sublist {A B} (f g : A -> option B) (l : list A) :
  (forall x y, f x = Some y -> g x = Some y) ->
  filterMap f l `sublist_of` filterMap g l.
Proof.
  intros Hfg. induction l as [|x l IH]; cbn [filterMap]; [constructor|].
  destruct (f x) as [y|] eqn:Hf.
  - rewrite (Hfg x y Hf). constructor. exact IH.
  - destruct (g x); [constructor|]; exact IH.
Qed.

Lemma contentLine_without_pattern (cp : option RegExp) (u : Z)
    (numbered : Z * jsstring) (l : ParsedLine) :
  contentLine cp u numbered = Some l -> contentLine None u numbered = Some l.
Proof.
  destruct numbered as [i raw]. unfold contentLine.
  destruct (Nat.eqb (length (trim raw)) 0); [discriminate|].
  destruct (isComment cp raw); [discriminate|]. trivial.
Qed.

Lemma diffLine_without_pattern (cp : option RegExp) (u : Z)
    (numbered : Z * jsstring) (l : ParsedLine) :
  diffLine cp u numbered = Some l -> diffLine None u numbered = Some l.
Proof.
  destruct numbered as [k raw]. unfold diffLine.
  destruct (Nat.eqb (length (trim (slice1 raw))) 0); [discriminate|].
  destruct (isComment cp (slice1 raw)); [discriminate|]. trivial.
Qed.

(** X5: a comment pattern, default or custom, only removes lines: the
    lines returned with it are a subsequence of the lines returned with
    [commentPattern: null], with the same line numbers, depths and
    contents, for [parseContent] and for [parseDiff]; so [null] never
    gives fewer lines. *)
Theorem comment_pattern_only_removes_lines
    (detectIndent : jsstring -> Indent) (text : jsstring)
    (include : Include) (options : ParseOptions.t) :
  let unfiltered := ParseOptions.mk (Some None) in
  lines (parseContent detectIndent text options)
    `sublist_of` lines (parseContent detectIndent text unfiltered)
  /\ lines (parseDiff detectIndent text include options)
       `sublist_of` lines (parseDiff detectIndent text include unfiltered)
  /\ (length (lines (parseContent detectIndent text options))
      <= length (lines (parseContent detectIndent text unfiltered)))%nat
  /\ (length (lines (parseDiff detectIndent text include options))
      <= length (lines (parseDiff detectIndent text include unfiltered)))%nat.
Proof.
  intros unfiltered.
  assert (Hcontent :
    lines (parseContent detectIndent text options)
      `sublist_of` lines (parseContent detectIndent text unfiltered)).
  { rewrite !parseContent_spec. cbn [lines].
    apply filterMap_sublist. intros x y. apply contentLine_without_pattern. }
  assert (Hdiff :
    lines (parseDiff detectIndent text include options)
      `sublist_of` lines (parseDiff detectIndent text include unfiltered)).
  { rewrite !parseDiff_spec. cbn [lines].
    apply filterMap_sublist. intros x y. apply diffLine_without_pattern. }
  split; [exact Hcontent|]. split; [exact Hdiff|].
  split; apply sublist_length; assumption.
Qed.

(** ** A diff that adds a whole file *)

Lemma added_line_passes (line : jsstring) :
  startsWith line (js "++") = false ->
  passesGate additions (js "+" ++ line) = true
  /\ passesGate both (js "+" ++ line) = true
  /\ isDiffCodeLine (js "+" ++ line) = true.
Proof.
  change (js "++") with [43; 43]%N. intros Hline.
  change (js "+" ++ line) with (43%N :: line).
  unfold passesGate, isDiffHeader, shouldIncludeLine, isDiffCodeLine.
  change DIFF_HEADER_PREFIXES
    with [[100; 105; 102; 102; 32]; [105; 110; 100; 101; 120; 32];
          [43; 43; 43]; [45; 45; 45]; [64; 64]]%N.
  change (js "+") with [43%N]. change (js "-") with [45%N].
  change (js "+++") with [43; 43; 43]%N.
  change (js "---") with [45; 45; 45]%N.
  cbn [List.existsb]. rewrite !startsWith_cons.
  change (char_eqb 43%N 100%N) with false. change (char_eqb 43%N 105%N) with false.
  change (char_eqb 43%N 43%N) with true. change (char_eqb 43%N 45%N) with false.
  change (char_eqb 43%N 64%N) with false.
  cbn [andb orb negb]. rewrite Hline. repeat split.
Qed.

Lemma filter_all {A} (p : A -> bool) (l : list A) :
  List.Forall (fun x => p x = true) l -> List.filter p l = l.
Proof.
  induction 1 as [|x l Hx Hl IH]; [reflexivity|].
  cbn [List.filter]. rewrite Hx, IH. reflexivity.
Qed.

Lemma added_lines_parse_like_content (cp : option RegExp) (u i : Z)
    (ls : list jsstring) :
  filterMap (diffLine cp u)
    (numberedFrom (i + 1) (List.map (fun line => js "+" ++ line) ls))
  = filterMap (contentLine cp u) (numberedFrom i ls).
Proof.
  revert i. induction ls as [|line ls IH]; intros i; [reflexivity|].
  cbn [List.map numberedFrom filterMap]. rewrite IH.
  reflexivity.
Qed.

Lemma split_asAddedFile (text : jsstring) :
  split (asAddedFile text)
  = List.map (fun line => js "+" ++ line) (split text).
Proof.
  unfold asAddedFile. apply split_join.
  - pose proof (split_nonempty text) as Hne.
    destruct (split text); [congruence | discriminate].
  - pose proof (split_lines_have_no_newline text) as Hno.
    induction Hno as [|l ls Hl Hls IH]; [constructor|].
    cbn [List.map]. constructor; [|exact IH].
    intros [Heq | Hin]; [discriminate Heq | exact (Hl Hin)].
Qed.

Lemma parseDiff_asAddedFile (detectIndent : jsstring -> Indent)
    (text : jsstring) (include : Include) (options : ParseOptions.t) :
  List.Forall (fun line => startsWith line (js "++") = false) (split text) ->
  include <> deletions ->
  parseDiff detectIndent (asAddedFile text) include options
  = parseContent detectIndent text options.
Proof.
  intros Hplain Hinclude.
  rewrite parseDiff_spec, parseContent_spec.
  unfold diffDetectionInput. rewrite split_asAddedFile.
  assert (Hgate : List.Forall (fun x => passesGate include x = true)
            (List.map (fun line => js "+" ++ line) (split text))).
  { induction Hplain as [|l ls Hl Hls IH]; [constructor|].
    cbn [List.map]. constructor; [|exact IH].
    destruct (added_line_passes l Hl) as (Ha & Hb & _).
    destruct include; [exact Ha | congruence | exact Hb]. }
  assert (Hcode : List.Forall (fun x => isDiffCodeLine x = true)
            (List.map (fun line => js "+" ++ line) (split text))).
  { clear Hgate. induction Hplain as [|l ls Hl Hls IH]; [constructor|].
    cbn [List.map]. constructor; [|exact IH].
    apply (added_line_passes l Hl). }
  rewrite (filter_all _ _ Hgate), (filter_all _ _ Hcode).
  rewrite List.map_map.
  change (List.map (fun x => slice1 (js "+" ++ x)) (split text))
    with (List.map (fun x : jsstring => x) (split text)).
  rewrite List.map_id, join_split.
  rewrite (added_lines_parse_like_content _ _ 0). reflexivity.
Qed.

(** X6: a diff that adds every line of a text (each line behind a [+],
    none of them starting with [++]) is analysed exactly like the text
    itself: [parseDiff] under [additions] or [both] returns the lines,
    line numbers, depths and indent unit of [parseContent], and
    [analyzeDiffComplexity] returns the result of [analyzeComplexity]. *)
Theorem added_file_is_analysed_like_the_file
    (detectIndent : jsstring -> Indent) (text : jsstring) :
  List.Forall (fun line => startsWith line (js "++") = false) (split text) ->
  (forall options : ParseOptions.t,
      parseDiff detectIndent (asAddedFile text) additions options
      = parseContent detectIndent text options
      /\ parseDiff detectIndent (asAddedFile text) both options
         = parseContent detectIndent text options)
  /\ (forall (num : Type) (NUM : Number num) (FMT : NumberFormat num)
             (cp : option (option RegExp))
             (thresholds : option (Partial.Thresholds num))
             (verbose includeLines : option bool),
         analyzeDiffComplexity detectIndent (asAddedFile text)
           (DiffOptions.mk cp thresholds verbose includeLines None)
         = analyzeComplexity detectIndent text
             (AnalyzeOptions.mk cp thresholds verbose includeLines)
         /\ analyzeDiffComplexity detectIndent (asAddedFile text)
              (DiffOptions.mk cp thresholds verbose includeLines (Some both))
            = analyzeComplexity detectIndent text
                (AnalyzeOptions.mk cp thresholds verbose includeLines)).
Proof.
  intros Hplain. split.
  - intros options.
    split; apply parseDiff_asAddedFile; try assumption; discriminate.
  - intros num NUM FMT cp thresholds verbose includeLines.
    unfold analyzeDiffComplexity, analyzeComplexity.
    cbn [default from_option Datatypes.id DiffOptions.include
         DiffOptions.commentPattern DiffOptions.verbose
         DiffOptions.includeLines DiffOptions.thresholds
         AnalyzeOptions.commentPattern AnalyzeOptions.verbose
         AnalyzeOptions.includeLines AnalyzeOptions.thresholds].
    rewrite !parseDiff_asAddedFile by (assumption || discriminate).
    split; reflexivity.
Qed.

Lemma added_file_is_analysed_like_the_file_witness :
  parseDiff detectTwoSpaces (asAddedFile nestedCode) additions
    (ParseOptions.mk None)
  = parseContent detectTwoSpaces nestedCode (ParseOptions.mk None).
Proof.
  apply (proj1 (added_file_is_analysed_like_the_file detectTwoSpaces
                  nestedCode ltac:(repeat constructor))).
Defined.

(** ** Lines without a marker *)

(** X7: a raw diff line that starts with neither [+] nor [-] (context,
    hunk header, [diff] or [index] line, empty line) has no effect at all:
    [parseDiff] returns the same lines, line numbers and indent unit for
    the diff without it, under every [include]. *)
Theorem unmarked_lines_do_not_matter
    (detectIndent : jsstring -> Indent) (diff diff' : jsstring)
    (before after : list jsstring) (line : jsstring)
    (include : Include) (options : ParseOptions.t) :
  startsWith line (js "+") = false ->
  startsWith line (js "-") = false ->
  split diff = before ++ line :: after ->
  split diff' = before ++ after ->
  parseDiff detectIndent diff include options
  = parseDiff detectIndent diff' include options.
Proof.
  intros Hplus Hminus Hd Hd'.
  assert (Hgate : passesGate include line = false).
  { unfold passesGate, shouldIncludeLine. rewrite Hplus, Hminus.
    apply andb_false_r. }
  assert (Hcode : isDiffCodeLine line = false).
  { unfold isDiffCodeLine. rewrite Hplus, Hminus. reflexivity. }
  rewrite !parseDiff_spec. unfold diffDetectionInput. rewrite Hd, Hd'.
  rewrite (filter_without _ line before after Hgate).
  rewrite (filter_without _ line before after Hcode).
  reflexivity.
Qed.

Lemma unmarked_lines_do_not_matter_witness :
  parseDiff detectTwoSpaces
    (join [js "@@ -10,2 +10,3 @@"; js "+a"; js " context"]) additions
    (ParseOptions.mk None)
  = parseDiff detectTwoSpaces (join [js "+a"; js " context"]) additions
      (ParseOptions.mk None).
Proof.
  apply (unmarked_lines_do_not_matter detectTwoSpaces _ _
           [] [js "+a"; js " context"] (js "@@ -10,2 +10,3 @@"));
    reflexivity.
Defined.

(** ** Analysed lines and detection lines *)

Lemma marked_line_is_no_text_header (line : jsstring) :
  startsWith line (js "+") || startsWith line (js "-") = true ->
  startsWith line (js "diff ") = false
  /\ startsWith line (js "index ") = false
  /\ startsWith line (js "@@") = false.
Proof.
  destruct line as [|c line]; [discriminate|].
  change (js "+") with [43%N]. change (js "-") with [45%N].
  change (js "diff ") with [100; 105; 102; 102; 32]%N.
  change (js "index ") with [105; 110; 100; 101; 120; 32]%N.
  change (js "@@") with [64; 64]%N.
  rewrite !startsWith_cons. unfold char_eqb.
  destruct (N.eqb_spec c 43) as [->|_]; [repeat split|].
  destruct (N.eqb_spec c 45) as [->|_]; [repeat split|].
  discriminate.
Qed.

Lemma passesGate_both_is_code_line (line : jsstring) :
  passesGate both line = isDiffCodeLine line.
Proof.
  unfold passesGate, isDiffHeader, isDiffCodeLine.
  rewrite shouldIncludeLine_spec.
  cbn [List.existsb DIFF_HEADER_PREFIXES].
  destruct (startsWith line (js "+") || startsWith line (js "-")) eqn:Hm.
  - destruct (marked_line_is_no_text_header line Hm) as (-> & -> & ->).
    destruct (startsWith line (js "+++")), (startsWith line (js "---"));
      reflexivity.
  - rewrite andb_false_r. reflexivity.
Qed.

(** X8: of the five header prefixes only [+++] and [---] ever decide
    anything, since a line that starts with [diff ], [index ] or [@@] has
    no marker anyway: a line passes the gate under [both] exactly when it
    is one of the lines indentation is detected on, and under [additions]
    or [deletions] when it is such a line with that marker; so the contents
    analysed under [both] are exactly the lines handed to the detector. *)
Theorem analysed_lines_are_detection_lines :
  (forall line : jsstring,
      passesGate both line = isDiffCodeLine line
      /\ passesGate additions line
         = isDiffCodeLine line && startsWith line (js "+")
      /\ passesGate deletions line
         = isDiffCodeLine line && startsWith line (js "-"))
  /\ (forall diff : jsstring,
         List.map slice1 (List.filter (passesGate both) (split diff))
         = extractDiffCodeLines (split diff)).
Proof.
  split.
  - intros line. split; [apply passesGate_both_is_code_line|].
    rewrite <- passesGate_both_is_code_line.
    unfold passesGate. rewrite !shouldIncludeLine_spec.
    destruct (isDiffHeader line), (startsWith line (js "+")),
      (startsWith line (js "-")); repeat split.
  - intros diff. rewrite extractDiffCodeLines_spec. f_equal.
    generalize (split diff) as ls.
    induction ls as [|l ls IH]; [reflexivity|]. cbn [List.filter].
    rewrite passesGate_both_is_code_line, IH. reflexivity.
Qed.

(* ================================================================== *)
(** * Further properties of the histogram, the result and the levels *)
(* ================================================================== *)

Lemma histogram_fold_lookup (depths : list Z) (h : gmap Z Z) (d : Z) :
  fold_left
    (fun histogram depth =>
       <[depth := default 0 (histogram !! depth) + 1]> histogram)
    depths h !! d
  = match count_occ Z.eq_dec depths d with
    | O => h !! d
    | S n => Some (default 0 (h !! d) + Z.of_nat (S n))
    end.
Proof.
  revert h. induction depths as [|x l IH]; intros h; [reflexivity|].
  cbn [fold_left count_occ]. rewrite IH.
  destruct (Z.eq_dec x d) as [->|Hne].
  - rewrite lookup_insert_eq. cbn [default from_option Datatypes.id].
    destruct (count_occ Z.eq_dec l d); f_equal; lia.
  - rewrite lookup_insert_ne by exact Hne. reflexivity.
Qed.

(** X9: [buildHistogram] maps each depth that occurs to the number of its
    occurrences and has no key for a depth that does not occur; so every
    count is at least 1 and the histogram of no depths is empty. *)
Theorem histogram_counts_occurrences (depths : list Z) (d : Z) :
  buildHistogram depths !! d
  = match count_occ Z.eq_dec depths d with
    | O => None
    | S n => Some (Z.of_nat (S n))
    end
  /\ (is_Some (buildHistogram depths !! d) <-> In d depths)
  /\ (forall count : Z, buildHistogram depths !! d = Some count -> 1 <= count)
  /\ buildHistogram [] = ∅.
Proof.
  assert (Hlookup : buildHistogram depths !! d
                    = match count_occ Z.eq_dec depths d with
                      | O => None
                      | S n => Some (Z.of_nat (S n))
                      end).
  { unfold buildHistogram. rewrite histogram_fold_lookup, lookup_empty.
    destruct (count_occ Z.eq_dec depths d); [reflexivity|].
    cbn [default from_option Datatypes.id]. f_equal. }
  split; [exact Hlookup|]. split; [|split; [|reflexivity]].
  - rewrite Hlookup. rewrite (count_occ_In Z.eq_dec).
    destruct (count_occ Z.eq_dec depths d); split.
    + intros [x Hx]. discriminate Hx.
    + lia.
    + lia.
    + intros _. eexists. reflexivity.
  - intros count. rewrite Hlookup.
    destruct (count_occ Z.eq_dec depths d); [discriminate|].
    intros Hc. inversion Hc. lia.
Qed.

Lemma histogramTotal_step (h : gmap Z Z) (x : Z) :
  histogramTotal (<[x := default 0 (h !! x) + 1]> h) = histogramTotal h + 1.
Proof.
  unfold histogramTotal.
  destruct (h !! x) as [v|] eqn:Hx; cbn [default from_option Datatypes.id].
  - rewrite <- insert_delete_eq.
    rewrite map_fold_insert_L;
      [|intros; lia | apply lookup_delete_eq].
    rewrite (map_fold_delete_L _ _ x v h); [lia | intros; lia | exact Hx].
  - rewrite map_fold_insert_L; [lia | intros; lia | exact Hx].
Qed.

Lemma histogramTotal_fold (depths : list Z) (h : gmap Z Z) :
  histogramTotal
    (fold_left
       (fun histogram depth =>
          <[depth := default 0 (histogram !! depth) + 1]> histogram)
       depths h)
  = histogramTotal h + Z.of_nat (length depths).
Proof.
  revert h. induction depths as [|x l IH]; intros h.
  - cbn. lia.
  - cbn [fold_left length]. rewrite IH, histogramTotal_step. lia.
Qed.

(** X10: the counts of the histogram add up to the number of depths; in a
    result with the verbose fields the counts of [depthHistogram] add up
    to [lineCount]. *)
Theorem histogram_counts_sum_to_line_count :
  (forall depths : list Z,
      histogramTotal (buildHistogram depths) = Z.of_nat (length depths))
  /\ (forall (num : Type) (NUM : Number num) (FMT : NumberFormat num)
             (parsed : list ParsedLine) (options : BuildResultOptions.t num)
             (histogram : gmap Z Z),
         Result.depthHistogram (buildResult parsed options) = Some histogram ->
         Result.lineCount (buildResult parsed options)
         = Some (histogramTotal histogram)).
Proof.
  assert (Htotal : forall depths : list Z,
             histogramTotal (buildHistogram depths)
             = Z.of_nat (length depths)).
  { intros depths. unfold buildHistogram. rewrite histogramTotal_fold.
    unfold histogramTotal. rewrite map_fold_empty. lia. }
  split; [exact Htotal|].
  intros num NUM FMT parsed [v i u] histogram.
  destruct v, i; cbn; intros Hh; try discriminate Hh;
    inversion Hh; rewrite Htotal, length_map; reflexivity.
Qed.

Lemma histogram_counts_sum_to_line_count_witness :
  let FMT := Float64Format (fun _ => []) in
  Result.lineCount
    (buildResult [mkParsedLine 1 0 (js "a"); mkParsedLine 2 1 (js "b");
                  mkParsedLine 3 1 (js "c")]
       (BuildResultOptions.mk true false None))
  = Some (histogramTotal {[ 0 := 1; 1 := 2 ]}).
Proof.
  intros FMT.
  apply (proj2 histogram_counts_sum_to_line_count float Float64 FMT).
  vm_compute. reflexivity.
Defined.

(** X11: the result for [verbose] and [includeLines] both set has every
    field: [score], the level and reason of [assessComplexity] for it,
    [lineCount] (the number of parsed lines), the six moments of
    [computeStatistics], the histogram and one line detail per parsed
    line. Every other result is a projection of it: [score], [level] and
    [reason] are the same whatever the two flags are, the verbose fields
    are present with the same values when either flag is set and absent
    otherwise, and [lines] is present with the same value when
    [includeLines] is set and absent otherwise. *)
Theorem results_are_projections_of_the_richest
    {num : Type} {NUM : Number num} {FMT : NumberFormat num}
    (parsed : list ParsedLine) (verbose includeLines : bool)
    (u : option (Partial.Thresholds num)) :
  let r := buildResult parsed
             (BuildResultOptions.mk verbose includeLines u) in
  let full := buildResult parsed (BuildResultOptions.mk true true u) in
  let stats := computeStatistics (List.map ofZ (List.map depth parsed)) in
  let a := assessComplexity (score stats) (resolveThresholds u) in
  let pick := fun (A : Type) (wanted : bool) (field : option A) =>
                if wanted then field else None in
  (Result.score full = score stats
   /\ Result.level full = level a
   /\ Result.reason full = reason a
   /\ Result.lineCount full = Some (Z.of_nat (length parsed))
   /\ Result.max full = Some (max stats)
   /\ Result.variance full = Some (variance stats)
   /\ Result.mean full = Some (mean stats)
   /\ Result.stdDev full = Some (stdDev stats)
   /\ Result.median full = Some (median stats)
   /\ Result.sum full = Some (sum stats)
   /\ Result.depthHistogram full
      = Some (buildHistogram (List.map depth parsed))
   /\ Result.lines full
      = Some (List.map
                (fun l => LineDetail.mk (lineNumber l) (depth l) (content l))
                parsed))
  /\ Result.score r = Result.score full
  /\ Result.level r = Result.level full
  /\ Result.reason r = Result.reason full
  /\ Result.lineCount r
     = pick Z (verbose || includeLines) (Result.lineCount full)
  /\ Result.max r = pick num (verbose || includeLines) (Result.max full)
  /\ Result.variance r
     = pick num (verbose || includeLines) (Result.variance full)
  /\ Result.mean r = pick num (verbose || includeLines) (Result.mean full)
  /\ Result.stdDev r = pick num (verbose || includeLines) (Result.stdDev full)
  /\ Result.median r = pick num (verbose || includeLines) (Result.median full)
  /\ Result.sum r = pick num (verbose || includeLines) (Result.sum full)
  /\ Result.depthHistogram r
     = pick (gmap Z Z) (verbose || includeLines) (Result.depthHistogram full)
  /\ Result.lines r
     = pick (list LineDetail.t) includeLines (Result.lines full).
Proof.
  destruct verbose, includeLines; cbn; repeat split.
Qed.

(** X16: when [>=] is transitive on the numbers at hand, a higher score
    never gets a lower level, whatever the thresholds; and with
    [medium >= high] no score is ever assessed [Medium]. *)
Theorem assessment_is_monotone
    {num : Type} {NUM : Number num} {FMT : NumberFormat num}
    (t : Thresholds num) (score score' : num) :
  (forall a b c : num, geb a b = true -> geb b c = true -> geb a c = true) ->
  (geb score' score = true ->
   levelRank (level (assessComplexity score t))
   <= levelRank (level (assessComplexity score' t)))
  /\ (geb (medium t) (high t) = true ->
      level (assessComplexity score t) <> Medium).
Proof.
  intros Htrans. split.
  - intros Hle. unfold assessComplexity.
    destruct (geb score (high t)) eqn:Hh.
    + rewrite (Htrans _ _ _ Hle Hh). cbn. lia.
    + destruct (geb score (medium t)) eqn:Hm.
      * rewrite (Htrans _ _ _ Hle Hm).
        destruct (geb score' (high t)); cbn; lia.
      * destruct (geb score' (high t)); [cbn; lia|].
        destruct (geb score' (medium t)); cbn; lia.
  - intros Hswapped. unfold assessComplexity.
    destruct (geb score (high t)) eqn:Hh; [discriminate|].
    destruct (geb score (medium t)) eqn:Hm; [|discriminate].
    rewrite (Htrans _ _ _ Hm Hswapped) in Hh. discriminate Hh.
Qed.

Lemma exact_geb_transitive (a b c : R) :
  geb a b = true -> geb b c = true -> geb a c = true.
Proof.
  cbn [geb Exact].
  destruct (Rge_dec a b), (Rge_dec b c), (Rge_dec a c);
    intros; try discriminate; try reflexivity.
  exfalso. lra.
Qed.

Lemma assessment_is_monotone_witness :
  let FMT : NumberFormat R :=
    {| toFixed1 := fun _ => []; numberToString := fun _ => [] |} in
  levelRank (level (assessComplexity 3%R (mkThresholds 4%R 10%R)))
  <= levelRank (level (assessComplexity 5%R (mkThresholds 4%R 10%R))).
Proof.
  intros FMT.
  apply (proj1 (assessment_is_monotone (mkThresholds 4%R 10%R) 3%R 5%R
                  exact_geb_transitive)).
  cbn [geb Exact]. destruct (Rge_dec 5 3); [reflexivity | exfalso; lra].
Defined.

(* ================================================================== *)
(** * Further properties of the statistics *)
(* ================================================================== *)

Section SortingProperties.
Context {num : Type} {NUM : Number num}.

(** The numbers at hand, on which [<=] is total and transitive. *)
Variable ordered : num -> Prop.
Hypothesis leb_total :
  forall a b, ordered a -> ordered b -> leb a b = true \/ leb b a = true.
Hypothesis leb_trans :
  forall a b c, ordered a -> ordered b -> ordered c ->
    leb a b = true -> leb b c = true -> leb a c = true.

Lemma insertSorted_perm (x : num) (l : list num) :
  Permutation (insertSorted x l) (x :: l).
Proof.
  induction l as [|y l IH]; cbn [insertSorted]; [reflexivity|].
  destruct (leb x y); [reflexivity|].
  rewrite IH. apply perm_swap.
Qed.

Lemma sortNumbers_perm (l : list num) : Permutation (sortNumbers l) l.
Proof.
  induction l as [|x l IH]; [reflexivity|].
  cbn [sortNumbers fold_right]. fold (sortNumbers l).
  rewrite insertSorted_perm, IH. reflexivity.
Qed.

Lemma insertSorted_sorted (x : num) (l : list num) :
  ordered x -> List.Forall ordered l ->
  StronglySorted (fun a b => leb a b = true) l ->
  StronglySorted (fun a b => leb a b = true) (insertSorted x l).
Proof.
  intros Hx Hl Hsorted.
  induction Hsorted as [|y l Hsorted IH Hall]; cbn [insertSorted].
  - repeat constructor.
  - inversion Hl as [|? ? Hy Hl']; subst.
    destruct (leb x y) eqn:Hxy.
    + constructor; [constructor; assumption|].
      constructor; [exact Hxy|].
      rewrite List.Forall_forall in Hall, Hl' |- *.
      intros z Hz. apply (leb_trans x y z); auto.
    + constructor; [apply IH; exact Hl'|].
      apply (Permutation_Forall (Permutation_sym (insertSorted_perm x l))).
      constructor; [|exact Hall].
      destruct (leb_total x y Hx Hy) as [Hle | Hle]; [congruence | exact Hle].
Qed.

Lemma sortNumbers_sorted (l : list num) :
  List.Forall ordered l ->
  StronglySorted (fun a b => leb a b = true) (sortNumbers l).
Proof.
  induction 1 as [|x l Hx Hl IH]; [constructor|].
  cbn [sortNumbers fold_right]. fold (sortNumbers l).
  apply insertSorted_sorted; [exact Hx | | exact IH].
  apply (Permutation_Forall (Permutation_sym (sortNumbers_perm l))), Hl.
Qed.

Lemma sorted_last_is_greatest (l : list num) (d : num) :
  List.Forall ordered l ->
  StronglySorted (fun a b => leb a b = true) l ->
  l <> [] ->
  In (List.last l d) l /\ forall x, In x l -> leb x (List.last l d) = true.
Proof.
  intros Hl Hsorted.
  induction Hsorted as [|y l Hsorted IH Hall]; intros Hne;
    [exfalso; apply Hne; reflexivity|].
  inversion Hl as [|? ? Hy Hl']; subst.
  destruct l as [|z l'].
  - cbn. split; [left; reflexivity|]. intros x [<- | []].
    destruct (leb_total y y Hy Hy); assumption.
  - destruct (IH Hl' ltac:(discriminate)) as [Hin Hmax].
    change (List.last (y :: z :: l') d) with (List.last (z :: l') d).
    split; [right; exact Hin|].
    intros x [<- | Hx]; [|apply Hmax, Hx].
    rewrite List.Forall_forall in Hall. apply Hall, Hin.
Qed.

End SortingProperties.

(** X12: when [<=] is total and transitive on the depths at hand, the
    sorted copy [computeStatistics] makes is a permutation of the depths in
    ascending order, and for a non-empty list [max] is one of the depths
    and no depth is larger. *)
Theorem max_is_the_greatest_depth
    {num : Type} {NUM : Number num} (depths : list num) :
  depths <> [] ->
  (forall a b, In a depths -> In b depths ->
               leb a b = true \/ leb b a = true) ->
  (forall a b c, In a depths -> In b depths -> In c depths ->
                 leb a b = true -> leb b c = true -> leb a c = true) ->
  let stats := computeStatistics depths in
  Permutation (sortNumbers depths) depths
  /\ StronglySorted (fun a b => leb a b = true) (sortNumbers depths)
  /\ max stats = List.last (sortNumbers depths) (ofZ 0)
  /\ In (max stats) depths
  /\ (forall d, In d depths -> leb d (max stats) = true).
Proof.
  intros Hne Htotal Htrans stats. subst stats.
  pose proof (sortNumbers_perm depths) as Hperm.
  assert (Hdom : List.Forall (fun d => In d depths) depths)
    by (apply List.Forall_forall; auto).
  pose proof (sortNumbers_sorted (fun d => In d depths) Htotal Htrans
                depths Hdom) as Hsorted.
  assert (Hdom' : List.Forall (fun d => In d depths) (sortNumbers depths))
    by (apply (Permutation_Forall (Permutation_sym Hperm)), Hdom).
  assert (Hnonempty : sortNumbers depths <> []).
  { intros Heq. rewrite Heq in Hperm.
    apply Permutation_nil in Hperm. exact (Hne Hperm). }
  destruct (sorted_last_is_greatest (fun d => In d depths) Htotal
              (sortNumbers depths) (ofZ 0) Hdom' Hsorted Hnonempty)
    as [Hlast Hmax].
  assert (Hmaxfield : max (computeStatistics depths)
                      = List.last (sortNumbers depths) (ofZ 0)).
  { destruct depths; [exfalso; apply Hne; reflexivity | reflexivity]. }
  rewrite Hmaxfield.
  split; [exact Hperm|]. split; [exact Hsorted|]. split; [reflexivity|].
  split.
  - apply (Permutation_in _ Hperm), Hlast.
  - intros d Hd. apply Hmax.
    apply (Permutation_in _ (Permutation_sym Hperm)), Hd.
Qed.

Lemma max_is_the_greatest_depth_witness :
  let stats := computeStatistics (List.map float_ofZ [0; 2; 1]) in
  max stats = 2%float /\ In (max stats) (List.map float_ofZ [0; 2; 1]).
Proof.
  intros stats. split; [vm_compute; reflexivity|].
  apply (max_is_the_greatest_depth (List.map float_ofZ [0; 2; 1])).
  - discriminate.
  - intros a b [<- | [<- | [<- | []]]] [<- | [<- | [<- | []]]];
      vm_compute; auto.
  - intros a b c [<- | [<- | [<- | []]]] [<- | [<- | [<- | []]]]
      [<- | [<- | [<- | []]]]; vm_compute; auto.
Defined.

(* ================================================================== *)
(** * Further properties of whole-text analysis *)
(* ================================================================== *)

Lemma length_contentLines (cp : option RegExp) (u i : Z)
    (l : list jsstring) :
  length (filterMap (contentLine cp u) (numberedFrom i l))
  = length
      (List.filter (fun line => negb (isBlank line)
                                && negb (isComment cp line)) l).
Proof.
  revert i. induction l as [|line l IH]; intros i; [reflexivity|].
  cbn [numberedFrom filterMap contentLine List.filter]. unfold isBlank at 1.
  destruct (Nat.eqb (length (trim line)) 0); cbn [negb andb]; [apply IH|].
  destruct (isComment cp line); cbn [negb length];
    [apply IH | f_equal; apply IH].
Qed.

(** X17: with the default comment pattern or [null], and [verbose] or
    [includeLines] set, [lineCount] of [analyzeComplexity] is the number of
    physical lines of the text that are neither blank nor comment; it does
    not depend on the detected indentation, on the thresholds or on the
    arithmetic. *)
Theorem line_count_is_number_of_code_lines
    {num : Type} {NUM : Number num} {FMT : NumberFormat num}
    (detectIndent : jsstring -> Indent) (text : jsstring)
    (commentPattern : option (option RegExp))
    (thresholds : option (Partial.Thresholds num))
    (verbose includeLines : option bool) :
  builtinPattern commentPattern ->
  default false verbose || default false includeLines = true ->
  let cp := default (Some DEFAULT_COMMENT_PATTERN) commentPattern in
  Result.lineCount
    (analyzeComplexity detectIndent text
       (AnalyzeOptions.mk commentPattern thresholds verbose includeLines))
  = Some (Z.of_nat
            (length
               (List.filter
                  (fun line => negb (isBlank line)
                               && negb (isComment cp line))
                  (split text)))).
Proof.
  intros _ Hdetailed cp. unfold analyzeComplexity.
  cbn [AnalyzeOptions.verbose AnalyzeOptions.includeLines
       AnalyzeOptions.thresholds AnalyzeOptions.commentPattern].
  rewrite buildResult_lineCount by exact Hdetailed.
  rewrite parseContent_spec. cbn [lines ParseOptions.commentPattern].
  rewrite length_contentLines. reflexivity.
Qed.

Lemma line_count_is_number_of_code_lines_witness :
  let FMT := Float64Format (fun _ => []) in
  Result.lineCount
    (analyzeComplexity detectTwoSpaces commentedCode
       (AnalyzeOptions.mk None None (Some true) None))
  = Some 3.
Proof.
  intros FMT.
  apply (line_count_is_number_of_code_lines (FMT := FMT) detectTwoSpaces
           commentedCode None None (Some true) None).
  - left. reflexivity.
  - reflexivity.
Defined.

Lemma computeIndentDepth_unit_one (line : jsstring) :
  computeIndentDepth line 1
  = Z.of_nat (length (takeWhile isTabOrSpace line)).
Proof.
  pose proof (leadingWhitespaceOf_takeWhile line) as Hlead.
  rewrite (computeIndentDepth_columns line _ 1 Hlead).
  rewrite Z.div_1_r. unfold totalColumns.
  destruct Hlead as (_ & _ & Hall & _).
  induction Hall as [|c l Hc Hall IH]; [reflexivity|].
  cbn [count_occ length].
  destruct Hc as [-> | ->].
  - destruct (N.eq_dec TAB TAB) as [_|]; [|congruence].
    destruct (N.eq_dec TAB SPACE) as [Hx|_]; [discriminate Hx|]. lia.
  - destruct (N.eq_dec SPACE TAB) as [Hx|_]; [discriminate Hx|].
    destruct (N.eq_dec SPACE SPACE) as [_|]; [|congruence]. lia.
Qed.

(** X18: when the detector reports tabs, or reports no indentation at all
    (amount 0), the unit is 1 and the depth of every line [parseContent]
    returns is the number of its leading tabs and spaces: in a tab-indented
    text each leading space counts as a full level, like a tab. *)
Theorem tab_indented_depth_counts_characters
    (detectIndent : jsstring -> Indent) (text : jsstring)
    (options : ParseOptions.t) :
  type (detectIndent text) = Some tab \/ amount (detectIndent text) = 0 ->
  let parsed := parseContent detectIndent text options in
  indentUnit parsed = 1
  /\ Forall
       (fun l => exists line,
            nth_error (split text) (Z.to_nat (lineNumber l - 1)) = Some line
            /\ depth l = Z.of_nat (length (takeWhile isTabOrSpace line)))
       (lines parsed).
Proof.
  intros Hdetected parsed. subst parsed.
  rewrite parseContent_spec. cbn [lines indentUnit].
  assert (Hunit : indentUnitOf (detectIndent text) = 1).
  { unfold indentUnitOf. destruct Hdetected as [-> | ->]; [reflexivity|].
    destruct (type (detectIndent text)) as [[|]|]; reflexivity. }
  rewrite Hunit. split; [reflexivity|].
  apply List.Forall_forall. intros l Hin.
  apply In_filterMap in Hin. destruct Hin as ([i line] & Hin & Hline).
  apply contentLine_fields in Hline.
  destruct Hline as (Hn & _ & Hd & _).
  apply numberedFrom_nth_error in Hin.
  exists line. rewrite Hn, Hd.
  replace (i + 1 - 1) with (i - 0) by lia.
  split; [exact Hin | apply computeIndentDepth_unit_one].
Qed.

Lemma tab_indented_depth_counts_characters_witness :
  let detectTabs := fun _ : jsstring => mkIndent 1 (Some tab) in
  List.map depth
    (lines (parseContent detectTabs
              (join [js "a"; [TAB] ++ js "b"; [TAB; SPACE; SPACE] ++ js "c"])
              (ParseOptions.mk None)))
  = [0; 1; 3]
  /\ indentUnit
       (parseContent detectTabs
          (join [js "a"; [TAB] ++ js "b"; [TAB; SPACE; SPACE] ++ js "c"])
          (ParseOptions.mk None)) = 1.
Proof.
  intros detectTabs. split; [reflexivity|].
  apply (tab_indented_depth_counts_characters detectTabs
           (join [js "a"; [TAB] ++ js "b"; [TAB; SPACE; SPACE] ++ js "c"])
           (ParseOptions.mk None)).
  left. reflexivity.
Defined.

Lemma histogram_counts_occurrences_witness :
  1 <= 2.
Proof.
  apply (proj1 (proj2 (proj2 (histogram_counts_occurrences [0; 1; 1] 1)))).
  reflexivity.
Defined.
